(** * robinhood-checker: allocation model parser and portfolio reconciler

    A shallow embedding of [stock_categories.py] (the category / ticker /
    cash-reserve configuration reader) and of the numeric core of [main.py]
    (position enrichment and the "Portfolio balance" loop), followed by the
    properties of the specification that are checked against them.

    Conventions of the embedding:
    - a Python exception is a value of [exn]; a computation that may raise
      has type [result A] and is sequenced with stdpp's [x ← e; k];
    - Python [float]s are modelled by exact rationals ([Qc]); rounding,
      infinities and NaN are outside the model. A division whose divisor is
      zero raises [ZeroDivisionError], as in Python. Where a statement
      depends on the rounding, the code is embedded over an arbitrary float
      arithmetic ([FloatArith]), of which the exact rationals and the IEEE
      doubles of CPython ([binary64]) are two instances;
    - the builtin [float(str)] is a parameter [float_of_str] of the
      development ([None] where Python raises [ValueError]);
    - a [dict] keyed by strings is an insertion-ordered association list
      with unique keys ([pydict]), since [get_categories] iterates it in
      insertion order;
    - the csv reader is the list of rows still to be read. *)

From Stdlib Require Import Ascii QArith Qcanon.
From Stdlib Require SpecFloat.
From stdpp Require Import numbers base strings gmap list.

Local Open Scope Qc_scope.

(** ** Exceptions and the error monad *)

Inductive exn : Set :=
  | ParseError              (* stock_categories.ParseError *)
  | TickerNotFoundError     (* stock_categories.TickerNotFoundError *)
  | CategoryNotFoundError   (* stock_categories.CategoryNotFoundError *)
  | ValueError
  | TypeError
  | IndexError
  | KeyError
  | UnboundLocalError
  | ZeroDivisionError.

Global Instance exn_eq_dec : EqDecision exn.
Proof. solve_decision. Defined.

Inductive result (A : Type) : Type :=
  | Ok (a : A)
  | Raise (e : exn).
Global Arguments Ok {A} a.
Global Arguments Raise {A} e.

Global Instance result_ret : MRet result := λ A a, Ok a.
Global Instance result_bind : MBind result := λ A B f m,
  match m with
  | Ok a => f a
  | Raise e => Raise e
  end.

(** [try: body except cls: handler]: only an exception of class [cls] is
    handled, any other one propagates. *)
Definition try_except {A} (body : result A) (cls : exn) (handler : result A)
  : result A :=
  match body with
  | Ok a => Ok a
  | Raise e => if decide (e = cls) then handler else Raise e
  end.

(** Reading a local variable: unbound locals raise [UnboundLocalError]. *)
Definition read_local {A} (v : option A) : result A :=
  match v with
  | Some a => Ok a
  | None => Raise UnboundLocalError
  end.

(** [l[i]] on a list. *)
Definition list_getitem {A} (l : list A) (i : nat) : result A :=
  match l !! i with
  | Some a => Ok a
  | None => Raise IndexError
  end.

(** [x / y] on floats. *)
Definition truediv (x y : Qc) : result Qc :=
  if decide (y = 0) then Raise ZeroDivisionError else Ok (x / y).

(** Integers used as floats: [len(...)] and the literal [100]. *)
Definition float_of_int (n : Z) : Qc := Q2Qc (inject_Z n).
Definition float_of_len (n : nat) : Qc := float_of_int (Z.of_nat n).
Definition hundred : Qc := float_of_int 100.

(** ** Insertion-ordered dictionaries with string keys *)

Definition pydict (V : Type) : Type := list (string * V).

Fixpoint dict_get {V} (d : pydict V) (k : string) : option V :=
  match d with
  | [] => None
  | (k', v) :: d' => if decide (k' = k) then Some v else dict_get d' k
  end.

(** [d[k] = v]: an existing key keeps its position, a new key goes last. *)
Fixpoint dict_set {V} (d : pydict V) (k : string) (v : V) : pydict V :=
  match d with
  | [] => [(k, v)]
  | (k', v') :: d' =>
      if decide (k' = k) then (k, v) :: d' else (k', v') :: dict_set d' k v
  end.

(** [d[k]] *)
Definition dict_getitem {V} (d : pydict V) (k : string) : result V :=
  match dict_get d k with
  | Some v => Ok v
  | None => Raise KeyError
  end.

Definition dict_keys {V} (d : pydict V) : list string := d.*1.
Definition dict_values {V} (d : pydict V) : list V := d.*2.

(** ** Strings *)

(** [s.replace(c, '')] for a one-character [c]. *)
Fixpoint str_remove (c : ascii) (s : string) : string :=
  match s with
  | EmptyString => EmptyString
  | String a s' =>
      if decide (a = c) then str_remove c s' else String a (str_remove c s')
  end.

(** A reader of plain decimal literals, [[+-]digits[.digits]], used to run
    the model on concrete inputs: on these literals Python's [float] denotes
    the same number. *)
Definition digit_of_ascii (a : ascii) : option Z :=
  let n := Z.of_nat (nat_of_ascii a) in
  if decide (48 ≤ n ≤ 57)%Z then Some (n - 48)%Z else None.

Fixpoint read_digits (s : string) (num : Z) (den : positive) (frac : bool)
  (seen : bool) : option (Z * positive) :=
  match s with
  | EmptyString => if seen then Some (num, den) else None
  | String a s' =>
      match digit_of_ascii a with
      | Some d =>
          read_digits s' (10 * num + d)%Z (if frac then (10 * den)%positive else den)
            frac true
      | None =>
          if decide (a = "."%char) then
            if frac then None else read_digits s' num den true seen
          else None
      end
  end.

Definition decimal_of_str (s : string) : option Qc :=
  match s with
  | String "-" s' =>
      '(n, d) ← read_digits s' 0%Z 1%positive false false; Some (Q2Qc (- n # d))
  | String "+" s' =>
      '(n, d) ← read_digits s' 0%Z 1%positive false false; Some (Q2Qc (n # d))
  | _ =>
      '(n, d) ← read_digits s 0%Z 1%positive false false; Some (Q2Qc (n # d))
  end.

(** * stock_categories.py *)

(** The two classes; [Ticker.t] and [Category.t] are their instances. *)
Module Ticker.
Record t : Type := mk {
    name : string;
    categories : list string;
  }.
End Ticker.

Module Category.
Record t : Type := mk {
    name : string;
    tickers : list Ticker.t;
    allocation_percentage : Qc;
  }.
End Category.

Global Instance Ticker_eq_dec : EqDecision Ticker.t.
Proof. solve_decision. Defined.

(** [trim_trailing_empty_values]: the [while] loop on [num_elements], then
    the slice [input_list[:num_elements]]. *)
Fixpoint trim_loop (input_list : list string) (num_elements : nat) : nat :=
  match num_elements with
  | O => O
  | S n =>
      if decide (input_list !! n = Some "") then trim_loop input_list n
      else num_elements
  end.

Definition trim_trailing_empty_values (input_list : list string) : list string :=
  take (trim_loop input_list (length input_list)) input_list.

Section Program.

(** The builtin [float] on strings. *)
Variable float_of_str : string → option Qc.

Definition py_float (s : string) : result Qc :=
  match float_of_str s with
  | Some q => Ok q
  | None => Raise ValueError
  end.

(** [Category.__init__]: the handler is for [TypeError] only. *)
Definition Category_init (name allocation_percentage : string)
  : result Category.t :=
  p ← try_except (py_float (str_remove "%" allocation_percentage))
        TypeError (Raise ParseError);
  Ok {| Category.name := name; Category.tickers := [];
        Category.allocation_percentage := p |}.

Definition Ticker_init (name : string) (categories : list string) : Ticker.t :=
  {| Ticker.name := name; Ticker.categories := categories |}.

(** First loop of [_load_info_from_csv], "load all basic settings".
    Returns the setting and the rows left in the reader. The warning
    logged for an unrecognised key has no effect on the result. *)
Fixpoint load_settings (reader : list (list string))
  (minimum_cash_amount : option Qc)
  : result (option Qc * list (list string)) :=
  match reader with
  | [] => Ok (minimum_cash_amount, [])
  | r :: reader =>
      let row := trim_trailing_empty_values r in
      match row with
      | [] => load_settings reader minimum_cash_amount
      | row0 :: _ =>
          if decide (row0 = "Category") then Ok (minimum_cash_amount, reader)
          else if decide (row0 = "Stock ticker") then
            Ok (minimum_cash_amount, reader)
          else if decide (row0 = "Reserved cash amount") then
            match try_except (v ← list_getitem row 1; py_float v)
                    TypeError (Raise ParseError) with
            | Ok m => load_settings reader (Some m)
            | Raise e => Raise e
            end
          else load_settings reader minimum_cash_amount
      end
  end.

(** Second loop, "load all categories". The local list [categories] is
    only appended to and never read, so it is left out. *)
Fixpoint load_categories (reader : list (list string))
  (categories_by_name : pydict Category.t)
  : result (pydict Category.t * list (list string)) :=
  match reader with
  | [] => Ok (categories_by_name, [])
  | r :: reader =>
      let row := trim_trailing_empty_values r in
      match row with
      | [] => load_categories reader categories_by_name
      | row0 :: _ =>
          if decide (row0 = "Category") then
            load_categories reader categories_by_name
          else if decide (row0 = "Stock ticker") then
            Ok (categories_by_name, reader)
          else
            match (allocation_percentage ← list_getitem row 1;
                   Category_init row0 allocation_percentage) with
            | Ok c =>
                load_categories reader (dict_set categories_by_name row0 c)
            | Raise e => Raise e
            end
      end
  end.

(** [categories_by_name[category_name].tickers.append(t)] *)
Definition append_ticker (categories_by_name : pydict Category.t)
  (category_name : string) (t : Ticker.t) : result (pydict Category.t) :=
  c ← dict_getitem categories_by_name category_name;
  Ok (dict_set categories_by_name category_name
        {| Category.name := c.(Category.name);
           Category.tickers := c.(Category.tickers) ++ [t];
           Category.allocation_percentage := c.(Category.allocation_percentage) |}).

(** [for category_name in category_names: ...] *)
Fixpoint append_ticker_all (categories_by_name : pydict Category.t)
  (category_names : list string) (t : Ticker.t) : result (pydict Category.t) :=
  match category_names with
  | [] => Ok categories_by_name
  | category_name :: category_names =>
      match append_ticker categories_by_name category_name t with
      | Ok categories_by_name =>
          append_ticker_all categories_by_name category_names t
      | Raise e => Raise e
      end
  end.

(** Third loop, "load all stock tickers and their categories". *)
Fixpoint load_tickers (reader : list (list string))
  (categories_by_name : pydict Category.t) (tickers_by_name : pydict Ticker.t)
  : result (pydict Category.t * pydict Ticker.t) :=
  match reader with
  | [] => Ok (categories_by_name, tickers_by_name)
  | r :: reader =>
      let row := trim_trailing_empty_values r in
      match row with
      | [] => load_tickers reader categories_by_name tickers_by_name
      | row0 :: category_names =>
          if decide (row0 = "Stock ticker") then
            load_tickers reader categories_by_name tickers_by_name
          else
            let t := Ticker_init row0 category_names in
            let tickers_by_name := dict_set tickers_by_name row0 t in
            match append_ticker_all categories_by_name category_names t with
            | Ok categories_by_name =>
                load_tickers reader categories_by_name tickers_by_name
            | Raise e => Raise e
            end
      end
  end.

(** What [_load_info_from_csv] returns. *)
Definition csv_info : Type := Qc * pydict Category.t * pydict Ticker.t.

Definition _load_info_from_csv (reader : list (list string))
  : result csv_info :=
  '(minimum_cash_amount, reader) ← load_settings reader None;
  '(categories_by_name, reader) ← load_categories reader [];
  '(categories_by_name, tickers_by_name) ← load_tickers reader categories_by_name [];
  match minimum_cash_amount with
  | None => Raise ParseError
  | Some minimum_cash_amount =>
      Ok (minimum_cash_amount, categories_by_name, tickers_by_name)
  end.

(** The object: the rows of its file and the cached parse. *)
Record StockCategories : Type := mkStockCategories {
  _categories_csv_file : list (list string);
  csv_data : option csv_info;
}.

Definition StockCategories_init (categories_csv_file : list (list string))
  : StockCategories :=
  {| _categories_csv_file := categories_csv_file; csv_data := None |}.

(** [load_info_from_csv]: a parsed triple is truthy, so the file is read
    on the first call only. *)
Definition load_info_from_csv (self : StockCategories)
  : result (csv_info * StockCategories) :=
  match csv_data self with
  | Some data => Ok (data, self)
  | None =>
      data ← _load_info_from_csv (_categories_csv_file self);
      Ok (data, {| _categories_csv_file := _categories_csv_file self;
                   csv_data := Some data |})
  end.

(** The accessors, as functions of the loaded triple ... *)
Definition categories_of_stock_ticker (data : csv_info) (stock_ticker : string)
  : result (list string) :=
  let '(minimum_cash_amount, categories_by_name, tickers_by_name) := data in
  try_except
    (t ← dict_getitem tickers_by_name stock_ticker; Ok t.(Ticker.categories))
    KeyError (Raise TickerNotFoundError).

Definition categories_of (data : csv_info) : result (list Category.t) :=
  let '(minimum_cash_amount, categories_by_name, tickers_by_name) := data in
  mapM (dict_getitem categories_by_name) (dict_keys categories_by_name).

Definition minimum_cash_amount_of (data : csv_info) : Qc :=
  let '(minimum_cash_amount, categories_by_name, tickers_by_name) := data in
  minimum_cash_amount.

(** In [get_tickers_in_category] the local [category] is bound by the
    [try] body only; the handler's message [f"... {category}"] reads it
    before [CategoryNotFoundError] is constructed. *)
Definition tickers_in_category (data : csv_info) (category_name : string)
  : result (list Ticker.t) :=
  let '(minimum_cash_amount, categories_by_name, tickers_by_name) := data in
  let category : option Category.t := None in
  match dict_getitem categories_by_name category_name with
  | Raise e =>
      if decide (e = KeyError) then
        _ ← read_local category; Raise CategoryNotFoundError
      else Raise e
  | Ok c =>
      let category := Some c in
      c ← read_local category; Ok c.(Category.tickers)
  end.

(** ... and as methods of the object. *)
Definition get_categories_of_stock_ticker (self : StockCategories)
  (stock_ticker : string) : result (list string * StockCategories) :=
  '(data, self) ← load_info_from_csv self;
  r ← categories_of_stock_ticker data stock_ticker; Ok (r, self).

Definition get_categories (self : StockCategories)
  : result (list Category.t * StockCategories) :=
  '(data, self) ← load_info_from_csv self;
  r ← categories_of data; Ok (r, self).

Definition get_minimum_cash_amount (self : StockCategories)
  : result (Qc * StockCategories) :=
  '(data, self) ← load_info_from_csv self;
  Ok (minimum_cash_amount_of data, self).

Definition get_tickers_in_category (self : StockCategories)
  (category_name : string) : result (list Ticker.t * StockCategories) :=
  '(data, self) ← load_info_from_csv self;
  r ← tickers_in_category data category_name; Ok (r, self).

(** * main.py *)

(** The record returned by the brokerage's portfolio query (the fields
    that are read), and [portfolio_dictionary]. *)
Record raw_portfolio : Type := {
  raw_equity : string;
  raw_adjusted_equity_previous_close : string;
  raw_market_value : string;
}.

Record portfolio_dict : Type := {
  equity : Qc;
  equity_previous_close : Qc;
  equity_percent_change_today : Qc;
  cash_amount : Qc;
  cash_percentage : Qc;
}.

Definition _update_portfolio_dictionary (portfolio : raw_portfolio)
  : result portfolio_dict :=
  equity ← py_float portfolio.(raw_equity);
  equity_previous_close ← py_float portfolio.(raw_adjusted_equity_previous_close);
  market_value ← py_float portfolio.(raw_market_value);
  let cash_amount := equity - market_value in
  change ← truediv (equity - equity_previous_close) equity_previous_close;
  cash_percentage ← truediv cash_amount equity;
  Ok {| equity := equity;
        equity_previous_close := equity_previous_close;
        equity_percent_change_today := change;
        cash_amount := cash_amount;
        cash_percentage := cash_percentage |}.

(** A record of the positions query, and the two lookups made for each:
    the instrument behind its reference and the quote of its symbol. *)
Record raw_position : Type := {
  raw_quantity : string;
  raw_average_buy_price : string;
  raw_instrument : string;
}.

Record instrument_json : Type := {
  instrument_symbol : string;
  instrument_simple_name : string;
}.

Record quote_json : Type := {
  last_trade_price : string;
  previous_close : string;
}.

Variable session_get : string → instrument_json.
Variable quote_data : string → quote_json.

(** An entry of [positions_dictionary]. *)
Record position : Type := {
  symbol : string;
  quantity : Qc;
  average_buy_price : Qc;
  current_price : Qc;
  previous_close_price : Qc;
  price_change_percent_today : Qc;
  total_cost : Qc;
  total_value : Qc;
  total_return_amount : Qc;
  total_return_percent : Qc;
}.

(** The body of the loop of [_update_positions_dictionary]. *)
Definition enrich_position (p : raw_position) : result position :=
  quantity ← py_float p.(raw_quantity);
  average_buy_price ← py_float p.(raw_average_buy_price);
  let instrument := session_get p.(raw_instrument) in
  let symbol := instrument.(instrument_symbol) in
  let quote := quote_data symbol in
  current_price ← py_float quote.(last_trade_price);
  previous_close_price ← py_float quote.(previous_close);
  price_change_percent_today ←
    truediv (current_price - previous_close_price) previous_close_price;
  let total_cost := quantity * average_buy_price in
  let total_value := quantity * current_price in
  let total_return_amount := total_value - total_cost in
  total_return_percent ←
    (if decide (total_cost = 0) then Ok 0
     else truediv total_return_amount total_cost);
  Ok {| symbol := symbol;
        quantity := quantity;
        average_buy_price := average_buy_price;
        current_price := current_price;
        previous_close_price := previous_close_price;
        price_change_percent_today := price_change_percent_today * hundred;
        total_cost := total_cost;
        total_value := total_value;
        total_return_amount := total_return_amount;
        total_return_percent := total_return_percent * hundred |}.

Fixpoint update_positions_loop (positions : list raw_position)
  (results : pydict position) : result (pydict position) :=
  match positions with
  | [] => Ok results
  | p :: positions =>
      match enrich_position p with
      | Ok e => update_positions_loop positions (dict_set results e.(symbol) e)
      | Raise e => Raise e
      end
  end.

Definition _update_positions_dictionary (positions : list raw_position)
  : result (pydict position) :=
  update_positions_loop positions [].

(** ** The "Portfolio balance" loop of [main] *)

Section Balance.

  (** [sc]'s loaded configuration, [r.portfolio_dictionary] and
      [r.positions_dictionary]. *)
Variable data : csv_info.
Variable portfolio : portfolio_dict.
Variable positions : pydict position.

  (** The body of [for ticker in stocks_in_category]. *)
Definition allocation_step (allocation_to_category : Qc)
    (ticker : Ticker.t) : result Qc :=
    if decide (ticker.(Ticker.name) = "Cash") then
      let allocation_to_category :=
        portfolio.(cash_amount) - minimum_cash_amount_of data in
      if decide (allocation_to_category < 0) then Ok 0
      else Ok allocation_to_category
    else
      match dict_get positions ticker.(Ticker.name) with
      | None => Ok allocation_to_category
      | Some position =>
          share ← truediv position.(total_value)
                    (float_of_len (length ticker.(Ticker.categories)));
          Ok (allocation_to_category + share)
      end.

Fixpoint allocation_loop (allocation_to_category : Qc)
    (stocks_in_category : list Ticker.t) : result Qc :=
    match stocks_in_category with
    | [] => Ok allocation_to_category
    | ticker :: stocks_in_category =>
        match allocation_step allocation_to_category ticker with
        | Ok allocation_to_category =>
            allocation_loop allocation_to_category stocks_in_category
        | Raise e => Raise e
        end
    end.

  (** A printed line of the table: name, ideal, actual, needed, holdings. *)
Record balance_row : Type := {
    row_category : string;
    row_ideal : Qc;
    row_actual : Qc;
    row_needed : Qc;
    row_holdings : list string;
  }.

  (** The body of [for category in sc.get_categories()]. *)
Definition balance_of_category (category : Category.t)
    : result balance_row :=
    stocks_in_category ← tickers_in_category data category.(Category.name);
    allocation_to_category ← allocation_loop 0 stocks_in_category;
    actual_allocation_percentage ←
      truediv (hundred * allocation_to_category) portfolio.(equity);
    Ok {| row_category := category.(Category.name);
          row_ideal := category.(Category.allocation_percentage);
          row_actual := actual_allocation_percentage;
          row_needed := category.(Category.allocation_percentage)
                        - actual_allocation_percentage;
          row_holdings := Ticker.name <$> stocks_in_category |}.

Definition portfolio_balance : result (list balance_row) :=
    categories ← categories_of data;
    mapM balance_of_category categories.

End Balance.

End Program.

(** ** [_update_positions_dictionary] over a float arithmetic *)

(** The operations of Python's [float] that the loop uses. No law is
    assumed of them, so what is proved of the loop over an arbitrary
    [FloatArith.ops] holds of the IEEE doubles as well as of the exact
    rationals. *)
Module FloatArith.

Record ops : Type := {
  fl : Type;
  of_str : string → option fl;   (* [float(s)], [None] where it raises *)
  of_int : Z → fl;               (* an [int] operand of a float operation *)
  sub : fl → fl → fl;            (* [x - y] *)
  mul : fl → fl → fl;            (* [x * y] *)
  div : fl → fl → fl;            (* [x / y], for [y != 0] *)
  eqb : fl → fl → bool;          (* [x == y] *)
}.

(** A Python number, an [int] or a [float]: [0 if c else x / y] is the
    [int] 0 or a [float]. *)
Inductive number (F : ops) : Type :=
  | Int (n : Z)
  | Float (x : fl F).
Global Arguments Int {F} n.
Global Arguments Float {F} x.

(** An entry of [positions_dictionary]. *)
Record position (F : ops) : Type := {
  symbol : string;
  quantity : fl F;
  average_buy_price : fl F;
  current_price : fl F;
  previous_close_price : fl F;
  price_change_percent_today : fl F;
  total_cost : fl F;
  total_value : fl F;
  total_return_amount : fl F;
  total_return_percent : number F;
}.
Global Arguments symbol {F} p.
Global Arguments quantity {F} p.
Global Arguments average_buy_price {F} p.
Global Arguments current_price {F} p.
Global Arguments previous_close_price {F} p.
Global Arguments price_change_percent_today {F} p.
Global Arguments total_cost {F} p.
Global Arguments total_value {F} p.
Global Arguments total_return_amount {F} p.
Global Arguments total_return_percent {F} p.

Section Loop.
Variable F : ops.
Variable session_get : string → instrument_json.
Variable quote_data : string → quote_json.

Definition py_float (s : string) : result (fl F) :=
  match of_str F s with
  | Some x => Ok x
  | None => Raise ValueError
  end.

(** [x / y] on floats. *)
Definition truediv (x y : fl F) : result (fl F) :=
  if eqb F y (of_int F 0) then Raise ZeroDivisionError else Ok (div F x y).

(** [v * k] for an [int] literal [k]. *)
Definition number_mul (v : number F) (k : Z) : number F :=
  match v with
  | Int n => Int (n * k)
  | Float x => Float (mul F x (of_int F k))
  end.

(** The body of the loop. *)
Definition enrich_position (p : raw_position) : result (position F) :=
  quantity ← py_float p.(raw_quantity);
  average_buy_price ← py_float p.(raw_average_buy_price);
  let instrument := session_get p.(raw_instrument) in
  let symbol := instrument.(instrument_symbol) in
  let quote := quote_data symbol in
  current_price ← py_float quote.(last_trade_price);
  previous_close_price ← py_float quote.(previous_close);
  price_change_percent_today ←
    truediv (sub F current_price previous_close_price) previous_close_price;
  let total_cost := mul F quantity average_buy_price in
  let total_value := mul F quantity current_price in
  let total_return_amount := sub F total_value total_cost in
  total_return_percent ←
    (if eqb F total_cost (of_int F 0) then Ok (Int 0)
     else x ← truediv total_return_amount total_cost; Ok (Float x));
  Ok {| symbol := symbol;
        quantity := quantity;
        average_buy_price := average_buy_price;
        current_price := current_price;
        previous_close_price := previous_close_price;
        price_change_percent_today :=
          mul F price_change_percent_today (of_int F 100);
        total_cost := total_cost;
        total_value := total_value;
        total_return_amount := total_return_amount;
        total_return_percent := number_mul total_return_percent 100 |}.

Fixpoint update_positions_loop (positions : list raw_position)
  (results : pydict (position F)) : result (pydict (position F)) :=
  match positions with
  | [] => Ok results
  | p :: positions =>
      match enrich_position p with
      | Ok e => update_positions_loop positions (dict_set results e.(symbol) e)
      | Raise e => Raise e
      end
  end.

Definition _update_positions_dictionary (positions : list raw_position)
  : result (pydict (position F)) :=
  update_positions_loop positions [].

End Loop.

End FloatArith.

(** The exact rationals, with a given reader of literals: the arithmetic of
    the rest of the development. *)
Definition exact_floats (float_of_str : string → option Qc) : FloatArith.ops :=
  {| FloatArith.fl := Qc;
     FloatArith.of_str := float_of_str;
     FloatArith.of_int := float_of_int;
     FloatArith.sub := Qcminus;
     FloatArith.mul := Qcmult;
     FloatArith.div := Qcdiv;
     FloatArith.eqb := λ x y, bool_decide (x = y) |}.

(** IEEE 754 binary64 with rounding to nearest even, CPython's [float]:
    53 bits of precision, exponents below 1024. *)
Definition binary64_of_int (n : Z) : SpecFloat.spec_float :=
  SpecFloat.binary_normalize 53 1024 n 0 false.

(** A plain decimal literal [n / 10^k] is read as the double nearest to it:
    the correctly rounded quotient of two integers that are doubles
    themselves, which is what [float] returns for literals of up to 15
    digits. *)
Definition binary64_of_str (s : string) : option SpecFloat.spec_float :=
  let quotient (nd : Z * positive) :=
    SpecFloat.SFdiv 53 1024 (binary64_of_int nd.1) (binary64_of_int (Zpos nd.2)) in
  match s with
  | String "-" s' =>
      nd ← read_digits s' 0%Z 1%positive false false;
      Some (SpecFloat.SFopp (quotient nd))
  | String "+" s' =>
      nd ← read_digits s' 0%Z 1%positive false false; Some (quotient nd)
  | _ =>
      nd ← read_digits s 0%Z 1%positive false false; Some (quotient nd)
  end.

Definition binary64 : FloatArith.ops :=
  {| FloatArith.fl := SpecFloat.spec_float;
     FloatArith.of_str := binary64_of_str;
     FloatArith.of_int := binary64_of_int;
     FloatArith.sub := SpecFloat.SFsub 53 1024;
     FloatArith.mul := SpecFloat.SFmul 53 1024;
     FloatArith.div := SpecFloat.SFdiv 53 1024;
     FloatArith.eqb := SpecFloat.SFeqb |}.

(** An entry over the exact rationals as an entry of the model above. *)
Definition exact_number {float_of_str}
  (v : FloatArith.number (exact_floats float_of_str)) : Qc :=
  match v with
  | FloatArith.Int n => float_of_int n
  | FloatArith.Float x => x
  end.

Definition exact_position {float_of_str}
  (e : FloatArith.position (exact_floats float_of_str)) : position :=
  {| symbol := e.(FloatArith.symbol);
     quantity := e.(FloatArith.quantity);
     average_buy_price := e.(FloatArith.average_buy_price);
     current_price := e.(FloatArith.current_price);
     previous_close_price := e.(FloatArith.previous_close_price);
     price_change_percent_today := e.(FloatArith.price_change_percent_today);
     total_cost := e.(FloatArith.total_cost);
     total_value := e.(FloatArith.total_value);
     total_return_amount := e.(FloatArith.total_return_amount);
     total_return_percent := exact_number e.(FloatArith.total_return_percent) |}.

(** ** More of [main]: the "Reserved cash" line and the warnings *)

(** The three numbers of the "Reserved cash" line, in the order in which
    the arguments of [format] are evaluated. *)
Definition reserved_cash_line (data : csv_info) (portfolio : portfolio_dict)
  : result (Qc * Qc * Qc) :=
  percent ← truediv (hundred * portfolio.(cash_amount))
              (minimum_cash_amount_of data);
  Ok (portfolio.(cash_amount), minimum_cash_amount_of data, percent).

(** [for ticker_name in r.positions_dictionary: ...]: only
    [TickerNotFoundError] is handled. *)
Fixpoint uncategorized_loop (data : csv_info) (ticker_names : list string)
  (uncategorized_tickers : list string) : result (list string) :=
  match ticker_names with
  | [] => Ok uncategorized_tickers
  | ticker_name :: ticker_names =>
      match categories_of_stock_ticker data ticker_name with
      | Ok _ => uncategorized_loop data ticker_names uncategorized_tickers
      | Raise e =>
          if decide (e = TickerNotFoundError) then
            uncategorized_loop data ticker_names
              (uncategorized_tickers ++ [ticker_name])
          else Raise e
      end
  end.

Definition uncategorized_tickers (data : csv_info)
  (positions : pydict position) : result (list string) :=
  uncategorized_loop data (dict_keys positions) [].

(** * Sample inputs *)

(** The configuration of the specification's end-to-end example. *)
Definition example_rows : list (list string) :=
  [ ["Reserved cash amount"; "1000"; ""];
    [];
    ["Category"; "Allocation"];
    ["Tech"; "50%"];
    ["Cash"; "10%"; ""; ""];
    ["Stock ticker"; "Categories"];
    ["AAPL"; "Tech"];
    ["Cash"; "Cash"] ].

(** What the reader returns on it. *)
Definition example_categories : pydict Category.t :=
  [ ("Tech", {| Category.name := "Tech";
                Category.tickers := [Ticker_init "AAPL" ["Tech"]];
                Category.allocation_percentage := float_of_int 50 |});
    ("Cash", {| Category.name := "Cash";
                Category.tickers := [Ticker_init "Cash" ["Cash"]];
                Category.allocation_percentage := float_of_int 10 |}) ].

Definition example_tickers : pydict Ticker.t :=
  [ ("AAPL", Ticker_init "AAPL" ["Tech"]);
    ("Cash", Ticker_init "Cash" ["Cash"]) ].

Definition example_data : csv_info :=
  (float_of_int 1000, example_categories, example_tickers).

(** The portfolio of that example: equity 10000, of which 2000 in cash,
    and one position, ten AAPL bought at 100 and now at 150. *)
Definition example_portfolio : portfolio_dict :=
  {| equity := float_of_int 10000;
     equity_previous_close := float_of_int 10000;
     equity_percent_change_today := 0;
     cash_amount := float_of_int 2000;
     cash_percentage := float_of_int 2000 / float_of_int 10000 |}.

Definition example_aapl : position :=
  {| symbol := "AAPL";
     quantity := float_of_int 10;
     average_buy_price := float_of_int 100;
     current_price := float_of_int 150;
     previous_close_price := float_of_int 150;
     price_change_percent_today := 0;
     total_cost := float_of_int 1000;
     total_value := float_of_int 1500;
     total_return_amount := float_of_int 500;
     total_return_percent := float_of_int 50 |}.

Definition example_positions : pydict position := [ ("AAPL", example_aapl) ].

(** One category holding "Cash" and a real symbol, in both orders. *)
Definition cash_first_rows : list (list string) :=
  [ ["Reserved cash amount"; "1000"];
    ["Category"; "Allocation"];
    ["Mixed"; "60%"];
    ["Stock ticker"; "Categories"];
    ["Cash"; "Mixed"];
    ["AAPL"; "Mixed"] ].

Definition cash_first_data : csv_info :=
  (float_of_int 1000,
   [ ("Mixed", {| Category.name := "Mixed";
                  Category.tickers :=
                    [Ticker_init "Cash" ["Mixed"]; Ticker_init "AAPL" ["Mixed"]];
                  Category.allocation_percentage := float_of_int 60 |}) ],
   [ ("Cash", Ticker_init "Cash" ["Mixed"]);
     ("AAPL", Ticker_init "AAPL" ["Mixed"]) ]).

Definition cash_last_rows : list (list string) :=
  [ ["Reserved cash amount"; "1000"];
    ["Category"; "Allocation"];
    ["Mixed"; "60%"];
    ["Stock ticker"; "Categories"];
    ["AAPL"; "Mixed"];
    ["Cash"; "Mixed"] ].

Definition cash_last_data : csv_info :=
  (float_of_int 1000,
   [ ("Mixed", {| Category.name := "Mixed";
                  Category.tickers :=
                    [Ticker_init "AAPL" ["Mixed"]; Ticker_init "Cash" ["Mixed"]];
                  Category.allocation_percentage := float_of_int 60 |}) ],
   [ ("AAPL", Ticker_init "AAPL" ["Mixed"]);
     ("Cash", Ticker_init "Cash" ["Mixed"]) ]).

(** A ticker declared twice, the second time without categories. *)
Definition redeclared_rows : list (list string) :=
  [ ["Reserved cash amount"; "1000"];
    ["Category"; "Allocation"];
    ["Tech"; "50%"];
    ["Stock ticker"; "Categories"];
    ["AAPL"; "Tech"];
    ["AAPL"] ].

Definition redeclared_data : csv_info :=
  (float_of_int 1000,
   [ ("Tech", {| Category.name := "Tech";
                 Category.tickers := [Ticker_init "AAPL" ["Tech"]];
                 Category.allocation_percentage := float_of_int 50 |}) ],
   [ ("AAPL", Ticker_init "AAPL" []) ]).

(** Two raw positions with their lookups: the AAPL lot above and a share
    received for free, whose average buy price is zero. *)
Definition example_raw_positions : list raw_position :=
  [ {| raw_quantity := "10"; raw_average_buy_price := "100";
       raw_instrument := "instruments/aapl" |};
    {| raw_quantity := "1"; raw_average_buy_price := "0.0000";
       raw_instrument := "instruments/free" |} ].

Definition example_session_get (url : string) : instrument_json :=
  if decide (url = "instruments/aapl")
  then {| instrument_symbol := "AAPL"; instrument_simple_name := "Apple" |}
  else {| instrument_symbol := "FREE"; instrument_simple_name := "Free share" |}.

Definition example_quote_data (symbol : string) : quote_json :=
  if decide (symbol = "AAPL")
  then {| last_trade_price := "150"; previous_close := "120" |}
  else {| last_trade_price := "7.50"; previous_close := "7" |}.

(** A configuration without "Cash" in which AAPL is split over two
    categories. *)
Definition split_rows : list (list string) :=
  [ ["Reserved cash amount"; "1000"];
    ["Category"; "Allocation"];
    ["Tech"; "50%"];
    ["Growth"; "30%"];
    ["Stock ticker"; "Categories"];
    ["AAPL"; "Tech"; "Growth"];
    ["MSFT"; "Tech"] ].

Definition split_data : csv_info :=
  (float_of_int 1000,
   [ ("Tech", {| Category.name := "Tech";
                 Category.tickers :=
                   [Ticker_init "AAPL" ["Tech"; "Growth"];
                    Ticker_init "MSFT" ["Tech"]];
                 Category.allocation_percentage := float_of_int 50 |});
     ("Growth", {| Category.name := "Growth";
                   Category.tickers := [Ticker_init "AAPL" ["Tech"; "Growth"]];
                   Category.allocation_percentage := float_of_int 30 |}) ],
   [ ("AAPL", Ticker_init "AAPL" ["Tech"; "Growth"]);
     ("MSFT", Ticker_init "MSFT" ["Tech"]) ]).

(** A snapshot of the account, and one whose equity is zero. *)
Definition example_raw_portfolio : raw_portfolio :=
  {| raw_equity := "10000";
     raw_adjusted_equity_previous_close := "8000";
     raw_market_value := "7500" |}.

Definition new_raw_portfolio : raw_portfolio :=
  {| raw_equity := "0";
     raw_adjusted_equity_previous_close := "100";
     raw_market_value := "0" |}.


(** One share bought at 3 and quoted at 4. *)
Definition third_raw_positions : list raw_position :=
  [ {| raw_quantity := "1"; raw_average_buy_price := "3";
       raw_instrument := "instruments/xyz" |} ].

Definition third_session_get (url : string) : instrument_json :=
  {| instrument_symbol := "XYZ"; instrument_simple_name := "Xyz" |}.

Definition third_quote_data (symbol : string) : quote_json :=
  {| last_trade_price := "4"; previous_close := "4" |}.

(** The entry that [_update_positions_dictionary] builds for it in double
    precision: its return is 33.33333333333333. *)
Definition third_entry : FloatArith.position binary64 :=
  {| FloatArith.symbol := "XYZ";
     FloatArith.quantity := (binary64_of_int 1 : FloatArith.fl binary64);
     FloatArith.average_buy_price := binary64_of_int 3;
     FloatArith.current_price := binary64_of_int 4;
     FloatArith.previous_close_price := binary64_of_int 4;
     FloatArith.price_change_percent_today := binary64_of_int 0;
     FloatArith.total_cost := binary64_of_int 3;
     FloatArith.total_value := binary64_of_int 4;
     FloatArith.total_return_amount := binary64_of_int 1;
     FloatArith.total_return_percent :=
       @FloatArith.Float binary64
         (SpecFloat.S754_finite false 4691249611844266 (-47)) |}.

(** Quotes in which the second symbol has no previous close. *)
Definition halted_quote_data (symbol : string) : quote_json :=
  if decide (symbol = "AAPL")
  then {| last_trade_price := "150"; previous_close := "120" |}
  else {| last_trade_price := "7.50"; previous_close := "0" |}.

(** * Vocabulary of the statements *)

(** The first cell of a row once trimmed: what every loop branches on. *)
Definition row_key (r : list string) : option string :=
  head (trim_trailing_empty_values r).

(** Rows on which the first loop goes on: anything but a section marker. *)
Definition settings_row (r : list string) : Prop :=
  row_key r ≠ Some "Category" ∧ row_key r ≠ Some "Stock ticker".

(** Rows on which the second loop goes on. *)
Definition categories_row (r : list string) : Prop :=
  row_key r ≠ Some "Stock ticker".

(** The tickers that a run of the third loop constructs, in order. *)
Definition declared_ticker (r : list string) : option Ticker.t :=
  match trim_trailing_empty_values r with
  | [] => None
  | row0 :: category_names =>
      if decide (row0 = "Stock ticker") then None
      else Some (Ticker_init row0 category_names)
  end.

Definition declared_tickers (reader : list (list string)) : list Ticker.t :=
  omap declared_ticker reader.

(** A category with more tickers appended to its list. *)
Definition add_tickers (ts : list Ticker.t) (c : Category.t) : Category.t :=
  {| Category.name := c.(Category.name);
     Category.tickers := c.(Category.tickers) ++ ts;
     Category.allocation_percentage := c.(Category.allocation_percentage) |}.

(** What ticker [t] appends to the list of category [c]: itself, once for
    each time its row names [c]. *)
Definition memberships (c : string) (t : Ticker.t) : list Ticker.t :=
  const t <$> filter (λ k, k = c) t.(Ticker.categories).

(** [max(x, y)] *)
Definition Qc_max (x y : Qc) : Qc := if decide (x < y) then y else x.

(** The sum of a list of amounts. *)
Definition Qc_sum (l : list Qc) : Qc := foldr Qcplus 0 l.

(** The allocation that the "Cash" pseudo-ticker stands for. *)
Definition cash_allocation (data : csv_info) (portfolio : portfolio_dict) : Qc :=
  Qc_max 0 (portfolio.(cash_amount) - minimum_cash_amount_of data).

(** The share of a real symbol in one category: its value split evenly
    over the categories of its row; nothing when it is not held. *)
Definition contribution (positions : pydict position) (t : Ticker.t) : Qc :=
  match dict_get positions t.(Ticker.name) with
  | Some p => p.(total_value) / float_of_len (length t.(Ticker.categories))
  | None => 0
  end.

(** The rows left for the third loop, i.e. the ticker section as the
    reader delimits it. *)
Definition ticker_rows (float_of_str : string → option Qc)
  (reader : list (list string)) : list (list string) :=
  match load_settings float_of_str reader None with
  | Ok (_, rest1) =>
      match load_categories float_of_str rest1 [] with
      | Ok (_, rest2) => rest2
      | Raise _ => []
      end
  | Raise _ => []
  end.

(** The names of the tickers returned by [get_tickers_in_category] over all
    the categories of [get_categories], as a set. *)
Definition category_ticker_names (data : csv_info) : result (gset string) :=
  categories ← categories_of data;
  tickers ← mapM (λ c, tickers_in_category data c.(Category.name)) categories;
  Ok (list_to_set (Ticker.name <$> mjoin tickers)).

(** The names of the ticker map whose ticker has a non-empty category
    list. *)
Definition categorized_ticker_names (data : csv_info) : gset string :=
  let '(minimum_cash_amount, categories_by_name, tickers_by_name) := data in
  list_to_set
    (filter (λ kt, kt.2.(Ticker.categories) ≠ []) tickers_by_name).*1.

(** The state of the category dictionary when the second loop has run: keys
    are the categories' names and no ticker is attached yet. *)
Definition fresh_categories (d : pydict Category.t) : Prop :=
  NoDup (dict_keys d) ∧
  Forall (λ kc, kc.2.(Category.name) = kc.1 ∧ kc.2.(Category.tickers) = []) d.

(** [tickers_by_name[t.name] = t] for each declared ticker in turn. *)
Definition register_tickers (tickers_by_name : pydict Ticker.t)
  (ts : list Ticker.t) : pydict Ticker.t :=
  foldl (λ d t, dict_set d t.(Ticker.name) t) tickers_by_name ts.

(** A raw position whose numbers can be read and whose previous close is
    not zero: the ones that [enrich_position] accepts. *)
Definition enrichable (float_of_str : string → option Qc)
  (session_get : string → instrument_json)
  (quote_data : string → quote_json) (p : raw_position) : Prop :=
  let quote :=
    quote_data (session_get p.(raw_instrument)).(instrument_symbol) in
  is_Some (float_of_str p.(raw_quantity)) ∧
  is_Some (float_of_str p.(raw_average_buy_price)) ∧
  is_Some (float_of_str quote.(last_trade_price)) ∧
  ∃ pc, float_of_str quote.(previous_close) = Some pc ∧ pc ≠ 0.

(** The rest of [_load_info_from_csv] from the third loop on, and from the
    second loop on. *)
Definition tickers_then_check (reader : list (list string))
  (categories_by_name : pydict Category.t) (tickers_by_name : pydict Ticker.t)
  (minimum_cash_amount : option Qc) : result csv_info :=
  match load_tickers reader categories_by_name tickers_by_name with
  | Raise e => Raise e
  | Ok (cbn, tbn) =>
      match minimum_cash_amount with
      | None => Raise ParseError
      | Some x => Ok (x, cbn, tbn)
      end
  end.

Definition categories_then_tickers (float_of_str : string → option Qc)
  (reader : list (list string)) (categories_by_name : pydict Category.t)
  (minimum_cash_amount : option Qc) : result csv_info :=
  match load_categories float_of_str reader categories_by_name with
  | Raise e => Raise e
  | Ok (cbn0, rest) => tickers_then_check rest cbn0 [] minimum_cash_amount
  end.

(** A row on which the first loop stops. *)
Definition section_marker (r : list string) : Prop :=
  row_key r = Some "Category" ∨ row_key r = Some "Stock ticker".

(** A settings row that neither stops the first loop nor sets the
    reserved cash amount: a blank row or an unrecognised key. *)
Definition quiet_row (r : list string) : Prop :=
  settings_row r ∧ row_key r ≠ Some "Reserved cash amount".

(** The end of the settings section: the end of the input or a marker. *)
Definition settings_end (post : list (list string)) : Prop :=
  post = [] ∨ ∃ mk rest, post = mk :: rest ∧ section_marker mk.

(** The rows left for the second loop, and the names of the data rows
    that it reads, in order. *)
Definition category_rows (float_of_str : string → option Qc)
  (reader : list (list string)) : list (list string) :=
  match load_settings float_of_str reader None with
  | Ok (_, rest1) => rest1
  | Raise _ => []
  end.

Fixpoint declared_category_names (reader : list (list string)) : list string :=
  match reader with
  | [] => []
  | r :: reader =>
      match trim_trailing_empty_values r with
      | [] => declared_category_names reader
      | row0 :: _ =>
          if decide (row0 = "Category") then declared_category_names reader
          else if decide (row0 = "Stock ticker") then []
          else row0 :: declared_category_names reader
      end
  end.

(** The distinct elements of a list, in order of first occurrence. *)
Definition first_occurrences_from (seen l : list string) : list string :=
  foldl (λ acc k, if decide (k ∈ acc) then acc else acc ++ [k]) seen l.

Definition first_occurrences (l : list string) : list string :=
  first_occurrences_from [] l.

(** The symbol under which a raw position is stored. *)
Definition symbol_of (session_get : string → instrument_json)
  (p : raw_position) : string :=
  (session_get p.(raw_instrument)).(instrument_symbol).

(** The raw positions that the loop accepts, over a float arithmetic: the
    four numbers can be read and the previous close is not zero. *)
Definition enrichable_in (F : FloatArith.ops)
  (session_get : string → instrument_json)
  (quote_data : string → quote_json) (p : raw_position) : Prop :=
  let quote := quote_data (symbol_of session_get p) in
  is_Some (FloatArith.of_str F p.(raw_quantity)) ∧
  is_Some (FloatArith.of_str F p.(raw_average_buy_price)) ∧
  is_Some (FloatArith.of_str F quote.(last_trade_price)) ∧
  ∃ pc, FloatArith.of_str F quote.(previous_close) = Some pc ∧
        FloatArith.eqb F pc (FloatArith.of_int F 0) = false.


(** * Properties *)

Lemma bind_Ok {A B} (a : A) (f : A → result B) : Ok a ≫= f = f a.
Proof. done. Qed.

(** ** Dictionaries *)

Section Dict.
Context {V : Type}.
Implicit Types (d : pydict V) (k : string) (v : V).

Lemma dict_get_set_eq d k v : dict_get (dict_set d k v) k = Some v.
Proof.
  induction d as [|[k' v'] d IH]; simpl.
  - by rewrite decide_True.
  - destruct (decide (k' = k)) as [->|Hne]; simpl.
    + by rewrite decide_True.
    + by rewrite decide_False.
Qed.

Lemma dict_get_set_ne d k k' v :
  k ≠ k' → dict_get (dict_set d k v) k' = dict_get d k'.
Proof.
  intros Hne. induction d as [|[k0 v0] d IH]; simpl.
  - by rewrite decide_False.
  - destruct (decide (k0 = k)) as [->|Hne0]; simpl.
    + by rewrite !decide_False.
    + by rewrite IH.
Qed.

Lemma dict_get_set d k k' v :
  dict_get (dict_set d k v) k' =
    if decide (k = k') then Some v else dict_get d k'.
Proof.
  case_decide as Hk; [subst; apply dict_get_set_eq|by apply dict_get_set_ne].
Qed.

Lemma dict_get_Some_elem d k v : dict_get d k = Some v → (k, v) ∈ d.
Proof.
  induction d as [|[k' v'] d IH]; simpl; [done|].
  case_decide as Hk.
  - intros [= ->]. subst. apply list_elem_of_here.
  - intros ?. apply list_elem_of_further; auto.
Qed.

Lemma dict_get_is_Some d k : is_Some (dict_get d k) ↔ k ∈ dict_keys d.
Proof.
  unfold dict_keys. induction d as [|[k' v'] d IH]; csimpl.
  - split; [by intros [? ?]|by intros ?%elem_of_nil].
  - case_decide as Hk.
    + subst. split; [intros _; apply list_elem_of_here|eauto].
    + rewrite IH, elem_of_cons. split; [by right|by intros [?|?]].
Qed.

Lemma dict_get_None d k : dict_get d k = None ↔ k ∉ dict_keys d.
Proof. rewrite eq_None_not_Some, dict_get_is_Some. done. Qed.

Lemma dict_elem_get d k v :
  NoDup (dict_keys d) → (k, v) ∈ d → dict_get d k = Some v.
Proof.
  unfold dict_keys. induction d as [|[k' v'] d IH]; csimpl.
  - by intros _ ?%elem_of_nil.
  - intros [Hk' Hnd]%NoDup_cons [[= -> ->]|Hin]%elem_of_cons.
    + by rewrite decide_True.
    + rewrite decide_False; [by apply IH|].
      intros ->. apply Hk'. apply list_elem_of_fmap. by exists (k, v).
Qed.

Lemma dict_keys_set d k v :
  dict_keys (dict_set d k v) =
    if decide (k ∈ dict_keys d) then dict_keys d else dict_keys d ++ [k].
Proof.
  unfold dict_keys. induction d as [|[k' v'] d IH]; csimpl.
  - done.
  - destruct (decide (k' = k)) as [->|Hne]; csimpl.
    + rewrite decide_True; [done|]. apply list_elem_of_here.
    + rewrite IH. destruct (decide (k ∈ d.*1)) as [Hin|Hin].
      * rewrite decide_True; [done|]. by apply list_elem_of_further.
      * rewrite decide_False; [done|].
        intros [?|?]%elem_of_cons; congruence.
Qed.

Lemma dict_keys_set_NoDup d k v :
  NoDup (dict_keys d) → NoDup (dict_keys (dict_set d k v)).
Proof.
  intros Hnd. rewrite dict_keys_set. case_decide as Hin; [done|].
  apply NoDup_app. split_and!; [done| |apply NoDup_singleton].
  intros x Hx ->%list_elem_of_singleton. done.
Qed.

Lemma dict_keys_set_elem d k v k' :
  k' ∈ dict_keys (dict_set d k v) ↔ k' = k ∨ k' ∈ dict_keys d.
Proof.
  rewrite <-!dict_get_is_Some, dict_get_set. case_decide as Hk.
  - subst. split; [by left|by eauto].
  - split; [by right|by intros [?|?]].
Qed.

Lemma dict_getitem_Ok d k v : dict_getitem d k = Ok v ↔ dict_get d k = Some v.
Proof.
  unfold dict_getitem. destruct (dict_get d k); split; congruence.
Qed.

Lemma dict_getitem_Raise d k e :
  dict_getitem d k = Raise e ↔ dict_get d k = None ∧ e = KeyError.
Proof.
  unfold dict_getitem. destruct (dict_get d k).
  - split; [done|by intros [? ?]].
  - split; [by intros [= <-]|by intros [_ ->]].
Qed.

(** Looking up each key of a dictionary gives its values, in order. *)
Lemma mapM_dict_getitem_keys d :
  NoDup (dict_keys d) →
  mapM (dict_getitem d) (dict_keys d) = Ok (dict_values d).
Proof.
  intros Hnd.
  assert (∀ l, l ⊆ d →
    mapM (dict_getitem d) l.*1 = Ok l.*2) as Hl.
  { induction l as [|[k v] l IH]; intros Hsub; [done|].
    rewrite !fmap_cons. cbn [mapM fst snd].
    assert (dict_getitem d k = Ok v) as ->.
    { apply dict_getitem_Ok, dict_elem_get; [done|].
      apply Hsub, list_elem_of_here. }
    simpl. rewrite IH; [done|].
    intros x Hx. apply Hsub. by apply list_elem_of_further. }
  by apply Hl.
Qed.

End Dict.

(** ** The three loops of [_load_info_from_csv] *)

Section Loops.
Variable float_of_str : string → option Qc.


Lemma row_key_nil r : trim_trailing_empty_values r = [] → row_key r = None.
Proof. unfold row_key. by intros ->. Qed.

Lemma row_key_cons r k cells :
  trim_trailing_empty_values r = k :: cells → row_key r = Some k.
Proof. unfold row_key. by intros ->. Qed.

(** The first loop leaves only at a marker or at the end of the input. *)
Lemma load_settings_app pre rest m :
  Forall settings_row pre →
  load_settings float_of_str (pre ++ rest) m =
    match load_settings float_of_str pre m with
    | Ok (m', _) => load_settings float_of_str rest m'
    | Raise e => Raise e
    end.
Proof.
  intros Hpre. revert m.
  induction Hpre as [|r pre [Hc Hs] _ IH]; intros m; [done|].
  simpl. destruct (trim_trailing_empty_values r) as [|k cells] eqn:Hr; [done|].
  apply row_key_cons in Hr. rewrite Hr in Hc, Hs.
  destruct (decide (k = "Category")) as [->|_]; [done|].
  destruct (decide (k = "Stock ticker")) as [->|_]; [done|].
  case_decide; [|done].
  destruct (try_except _ _ _); [done|done].
Qed.

Lemma load_settings_done pre m m' rest :
  Forall settings_row pre → load_settings float_of_str pre m = Ok (m', rest) → rest = [].
Proof.
  intros Hpre. revert m.
  induction Hpre as [|r pre [Hc Hs] _ IH]; intros m; simpl.
  { by intros [= _ <-]. }
  destruct (trim_trailing_empty_values r) as [|k cells] eqn:Hr; [by eauto|].
  apply row_key_cons in Hr. rewrite Hr in Hc, Hs.
  destruct (decide (k = "Category")) as [->|_]; [done|].
  destruct (decide (k = "Stock ticker")) as [->|_]; [done|].
  case_decide; [|by eauto].
  destruct (try_except _ _ _); [by eauto|done].
Qed.

Lemma load_categories_app pre rest d :
  Forall categories_row pre →
  load_categories float_of_str (pre ++ rest) d =
    match load_categories float_of_str pre d with
    | Ok (d', _) => load_categories float_of_str rest d'
    | Raise e => Raise e
    end.
Proof.
  intros Hpre. revert d.
  induction Hpre as [|r pre Hs _ IH]; intros d; [done|].
  simpl. destruct (trim_trailing_empty_values r) as [|k cells] eqn:Hr; [done|].
  apply row_key_cons in Hr. unfold categories_row in Hs. rewrite Hr in Hs.
  case_decide; [done|].
  destruct (decide (k = "Stock ticker")) as [->|_]; [done|].
  destruct (_ ≫= _); [done|done].
Qed.

Lemma load_tickers_app pre rest d t :
  load_tickers (pre ++ rest) d t =
    match load_tickers pre d t with
    | Ok (d', t') => load_tickers rest d' t'
    | Raise e => Raise e
    end.
Proof.
  revert d t. induction pre as [|r pre IH]; intros d t; [done|].
  simpl. destruct (trim_trailing_empty_values r) as [|k cells]; [done|].
  case_decide; [done|].
  destruct (append_ticker_all _ _ _); [done|done].
Qed.

Lemma add_tickers_nil c : add_tickers [] c = c.
Proof. destruct c. unfold add_tickers. simpl. by rewrite app_nil_r. Qed.

Lemma add_tickers_app ts1 ts2 c :
  add_tickers ts2 (add_tickers ts1 c) = add_tickers (ts1 ++ ts2) c.
Proof. unfold add_tickers. simpl. by rewrite app_assoc. Qed.

Lemma append_ticker_get d k t d' c :
  append_ticker d k t = Ok d' →
  dict_get d' c =
    if decide (k = c) then add_tickers [t] <$> dict_get d c else dict_get d c.
Proof.
  unfold append_ticker, dict_getitem.
  destruct (dict_get d k) as [cat|] eqn:Hk; [|done].
  simpl. intros [= <-]. rewrite dict_get_set.
  case_decide; [subst; by rewrite Hk|done].
Qed.

Lemma append_ticker_Raise d k t e :
  append_ticker d k t = Raise e → e = KeyError ∧ dict_get d k = None.
Proof.
  unfold append_ticker, dict_getitem.
  destruct (dict_get d k); [done|]. simpl. by intros [= <-].
Qed.

(** The inner loop appends [t] once per occurrence of the category ... *)
Lemma append_ticker_all_get d cats t d' c :
  append_ticker_all d cats t = Ok d' →
  dict_get d' c =
    add_tickers (const t <$> filter (λ k, k = c) cats) <$> dict_get d c.
Proof.
  revert d. induction cats as [|k cats IH]; intros d; simpl.
  - intros [= <-]. destruct (dict_get d c); simpl; [|done].
    by rewrite add_tickers_nil.
  - destruct (append_ticker d k t) as [d1|] eqn:Hk; [|done].
    intros Hd'. rewrite (IH _ Hd'), (append_ticker_get _ _ _ _ c Hk).
    rewrite filter_cons. destruct (decide (k = c)) as [->|Hne].
    + destruct (dict_get d c); simpl; [|done].
      by rewrite add_tickers_app.
    + done.
Qed.

(** ... and raises [KeyError] at the first unknown category. *)
Lemma append_ticker_all_Raise d cats t e :
  append_ticker_all d cats t = Raise e →
  e = KeyError ∧ ∃ c, c ∈ cats ∧ dict_get d c = None.
Proof.
  revert d. induction cats as [|k cats IH]; intros d; simpl; [done|].
  destruct (append_ticker d k t) as [d1|e1] eqn:Hk.
  - intros [-> (c & Hc & Hnone)]%IH. split; [done|].
    exists c. split; [by apply list_elem_of_further|].
    rewrite (append_ticker_get _ _ _ _ c Hk) in Hnone.
    case_decide; [|done]. by destruct (dict_get d c).
  - intros [= ->]. apply append_ticker_Raise in Hk as [-> Hk].
    split; [done|]. exists k. split; [apply list_elem_of_here|done].
Qed.

Lemma append_ticker_all_unknown d cats t c :
  c ∈ cats → dict_get d c = None → append_ticker_all d cats t = Raise KeyError.
Proof.
  intros Hc Hnone.
  destruct (append_ticker_all d cats t) as [d'|e] eqn:Hall.
  - exfalso. revert d Hnone Hall.
    induction Hc as [c cats|c k cats Hc IH]; intros d Hnone; simpl.
    + unfold append_ticker, dict_getitem. by rewrite Hnone.
    + destruct (append_ticker d k t) as [d1|] eqn:Hk; [|done].
      apply IH. rewrite (append_ticker_get _ _ _ _ c Hk).
      case_decide; [by rewrite Hnone|done].
  - by apply append_ticker_all_Raise in Hall as [-> _].
Qed.

(** The third loop: every category keeps its name and allocation and gets
    the memberships of the declared tickers appended, in order. *)
Lemma load_tickers_categories reader d tb d' tb' c :
  load_tickers reader d tb = Ok (d', tb') →
  dict_get d' c =
    add_tickers (declared_tickers reader ≫= memberships c) <$> dict_get d c.
Proof.
  revert d tb. induction reader as [|r reader IH]; intros d tb; simpl.
  - intros [= <- _]. destruct (dict_get d c); simpl; [|done].
    by rewrite add_tickers_nil.
  - unfold declared_tickers. simpl. unfold declared_ticker at 1.
    destruct (trim_trailing_empty_values r) as [|k cats]; [by apply IH|].
    case_decide; [by apply IH|].
    destruct (append_ticker_all _ _ _) as [d1|] eqn:Hall; [|done].
    intros Hd'. rewrite (IH _ _ Hd'), (append_ticker_all_get _ _ _ _ c Hall).
    simpl. destruct (dict_get d c); simpl; [|done].
    by rewrite add_tickers_app.
Qed.

Lemma load_tickers_get_None reader d tb d' tb' c :
  load_tickers reader d tb = Ok (d', tb') →
  dict_get d' c = None ↔ dict_get d c = None.
Proof.
  intros Hd'. rewrite (load_tickers_categories _ _ _ _ _ c Hd').
  by destruct (dict_get d c).
Qed.

(** [_load_info_from_csv] with its sequencing written out. *)
Lemma _load_info_from_csv_unfold reader :
  _load_info_from_csv float_of_str reader =
    match load_settings float_of_str reader None with
    | Raise e => Raise e
    | Ok (m, rest1) =>
        match load_categories float_of_str rest1 [] with
        | Raise e => Raise e
        | Ok (cbn0, rest2) =>
            match load_tickers rest2 cbn0 [] with
            | Raise e => Raise e
            | Ok (cbn, tbn) =>
                match m with
                | None => Raise ParseError
                | Some x => Ok (x, cbn, tbn)
                end
            end
        end
    end.
Proof.
  unfold _load_info_from_csv.
  destruct (load_settings float_of_str reader None) as [[m rest1]|]; [simpl|done].
  destruct (load_categories float_of_str rest1 []) as [[cbn0 rest2]|]; [simpl|done].
  by destruct (load_tickers rest2 cbn0 []) as [[cbn tbn]|].
Qed.

(** The first loop changes the setting at a "Reserved cash amount" row
    only. *)
Lemma load_settings_unset reader m0 m rest :
  Forall (λ r, row_key r ≠ Some "Reserved cash amount") reader →
  load_settings float_of_str reader m0 = Ok (m, rest) → m = m0.
Proof.
  intros Hno. revert m0. induction Hno as [|r reader Hr _ IH]; intros m0; simpl.
  { by intros [= <- _]. }
  destruct (trim_trailing_empty_values r) as [|k cells] eqn:Htrim; [by eauto|].
  apply row_key_cons in Htrim. rewrite Htrim in Hr.
  case_decide; [by intros [= <- _]|].
  case_decide; [by intros [= <- _]|].
  destruct (decide (k = "Reserved cash amount")) as [->|_]; [done|by eauto].
Qed.

(** A one-cell "Reserved cash amount" row: [row[1]] is out of range. *)
Lemma load_settings_one_cell r post m :
  trim_trailing_empty_values r = ["Reserved cash amount"] →
  load_settings float_of_str (r :: post) m = Raise IndexError.
Proof. simpl. by intros ->. Qed.

(** A one-cell data row in the second loop: [row[1]] is out of range. *)
Lemma load_categories_one_cell r post d name :
  trim_trailing_empty_values r = [name] →
  name ≠ "Category" → name ≠ "Stock ticker" →
  load_categories float_of_str (r :: post) d = Raise IndexError.
Proof.
  simpl. intros -> ? ?. by rewrite !decide_False by done.
Qed.

(** [Category.__init__] never reaches its handler: [float] raises
    [ValueError] on a string it cannot read, not [TypeError]. *)
Lemma Category_init_eq name pct :
  Category_init float_of_str name pct =
    match float_of_str (str_remove "%" pct) with
    | Some p =>
        Ok {| Category.name := name; Category.tickers := [];
              Category.allocation_percentage := p |}
    | None => Raise ValueError
    end.
Proof.
  unfold Category_init, py_float.
  by destruct (float_of_str (str_remove "%" pct)).
Qed.

Lemma load_categories_bad_percentage r post d name pct cells :
  trim_trailing_empty_values r = name :: pct :: cells →
  name ≠ "Category" → name ≠ "Stock ticker" →
  float_of_str (str_remove "%" pct) = None →
  load_categories float_of_str (r :: post) d = Raise ValueError.
Proof.
  simpl. intros -> ? ? Hpct. rewrite !decide_False by done.
  simpl. by rewrite Category_init_eq, Hpct.
Qed.

End Loops.

(** ** The configuration reader: errors and section markers *)

Section Reader.
Variable float_of_str : string → option Qc.

(** C3 (the code departs from the claim). A category row whose percentage
    cell, with its [%] removed, is not a number makes [Category.__init__]
    raise [ValueError]: the handler that would turn the failure into
    [ParseError] is written for [TypeError], which [float] does not raise on
    a string. When such a row is read by the category loop, the whole parse
    ends with [ValueError], so no category is registered from it. *)
Theorem malformed_percentage_raises_ValueError name pct :
  float_of_str (str_remove "%" pct) = None →
  Category_init float_of_str name pct = Raise ValueError ∧
  ∀ reader m pre r post cbn cells,
    load_settings float_of_str reader None = Ok (m, pre ++ r :: post) →
    Forall categories_row pre →
    load_categories float_of_str pre [] = Ok (cbn, []) →
    trim_trailing_empty_values r = name :: pct :: cells →
    name ≠ "Category" → name ≠ "Stock ticker" →
    _load_info_from_csv float_of_str reader = Raise ValueError.
Proof.
  intros Hpct. split.
  - by rewrite Category_init_eq, Hpct.
  - intros reader m pre r post cbn cells Hset Hpre Hcat Hr Hn1 Hn2.
    rewrite _load_info_from_csv_unfold, Hset.
    rewrite load_categories_app, Hcat by done.
    by rewrite (load_categories_bad_percentage _ _ _ _ name pct cells).
Qed.

(** C4 (the code departs from the claim). On a loaded configuration,
    [get_tickers_in_category] returns the ticker list of a category that
    exists; for a name that is not a category it raises
    [UnboundLocalError], not [CategoryNotFoundError]: the message of the
    latter reads the local [category], which the failed lookup left
    unbound. *)
Theorem get_tickers_in_category_unknown_name reader m cbn tbn name :
  _load_info_from_csv float_of_str reader = Ok (m, cbn, tbn) →
  (dict_get cbn name = None →
     get_tickers_in_category float_of_str (StockCategories_init reader) name
       = Raise UnboundLocalError) ∧
  (∀ c, dict_get cbn name = Some c →
     ∃ self, get_tickers_in_category float_of_str
               (StockCategories_init reader) name
             = Ok (c.(Category.tickers), self)).
Proof.
  intros Hload. unfold get_tickers_in_category, load_info_from_csv. simpl.
  rewrite Hload. simpl. unfold dict_getitem. split.
  - by intros ->.
  - intros c ->. simpl. eauto.
Qed.

(** C5 (the code departs from the claim). When the first marker met by the
    settings loop is "Stock ticker", the rows after it are not read as
    ticker declarations: the settings loop leaves on either marker and the
    category loop runs next, so the input is read exactly as if that marker
    were "Category". *)
Theorem stock_ticker_marker_opens_category_loop pre r post :
  Forall settings_row pre →
  row_key r = Some "Stock ticker" →
  _load_info_from_csv float_of_str (pre ++ r :: post) =
  _load_info_from_csv float_of_str (pre ++ ["Category"] :: post).
Proof.
  intros Hpre Hr. rewrite !_load_info_from_csv_unfold.
  rewrite !load_settings_app by done.
  destruct (load_settings float_of_str pre None) as [[m rest]|]; [|done].
  unfold row_key in Hr. simpl.
  destruct (trim_trailing_empty_values r) as [|k cells]; [done|].
  injection Hr as ->. done.
Qed.

(** C7. A data row read by the ticker loop that names a category which the
    category loop did not construct ends the parse with [KeyError]. *)
Theorem unknown_category_raises_KeyError
    reader m rest1 cbn0 pre r post cbn tbn name category_names c :
  load_settings float_of_str reader None = Ok (m, rest1) →
  load_categories float_of_str rest1 [] = Ok (cbn0, pre ++ r :: post) →
  load_tickers pre cbn0 [] = Ok (cbn, tbn) →
  trim_trailing_empty_values r = name :: category_names →
  name ≠ "Stock ticker" →
  c ∈ category_names →
  dict_get cbn0 c = None →
  _load_info_from_csv float_of_str reader = Raise KeyError.
Proof.
  intros Hset Hcat Hpre Hr Hname Hc Hnone.
  rewrite _load_info_from_csv_unfold, Hset, Hcat, load_tickers_app, Hpre.
  simpl. rewrite Hr, decide_False by done.
  rewrite (append_ticker_all_unknown _ _ _ c); [done|done|].
  by apply (load_tickers_get_None _ _ _ _ _ c) in Hpre as ->.
Qed.

(** C10. A row that trims to the single cell "Reserved cash amount", read
    by the settings loop, and a data row that trims to a single cell, read by
    the category loop, both end the parse with [IndexError]: the access to
    the second cell fails and no handler turns it into [ParseError]. *)
Theorem one_cell_row_raises_IndexError :
  (∀ pre r post m,
     Forall settings_row pre →
     load_settings float_of_str pre None = Ok (m, []) →
     trim_trailing_empty_values r = ["Reserved cash amount"] →
     _load_info_from_csv float_of_str (pre ++ r :: post) = Raise IndexError) ∧
  (∀ reader m pre r post cbn name,
     load_settings float_of_str reader None = Ok (m, pre ++ r :: post) →
     Forall categories_row pre →
     load_categories float_of_str pre [] = Ok (cbn, []) →
     trim_trailing_empty_values r = [name] →
     name ≠ "Category" → name ≠ "Stock ticker" →
     _load_info_from_csv float_of_str reader = Raise IndexError).
Proof.
  split.
  - intros pre r post m Hpre Hset Hr.
    rewrite _load_info_from_csv_unfold, load_settings_app, Hset by done.
    by rewrite load_settings_one_cell.
  - intros reader m pre r post cbn name Hset Hpre Hcat Hr Hn1 Hn2.
    rewrite _load_info_from_csv_unfold, Hset.
    rewrite load_categories_app, Hcat by done.
    by rewrite (load_categories_one_cell _ _ _ _ name).
Qed.

End Reader.

(** Instances on concrete inputs. *)

Local Ltac rows_ok :=
  repeat constructor; unfold settings_row, categories_row;
  try split; by vm_compute.

Lemma malformed_percentage_witness :
  Category_init decimal_of_str "Tech" "abc%" = Raise ValueError ∧
  _load_info_from_csv decimal_of_str
    [ ["Reserved cash amount"; "1000"];
      ["Category"; "Allocation"];
      ["Bonds"; "20%"];
      ["Tech"; "abc%"] ] = Raise ValueError.
Proof.
  destruct (malformed_percentage_raises_ValueError decimal_of_str "Tech" "abc%"
              eq_refl) as [Hinit Hload].
  split; [exact Hinit|].
  eapply (Hload _ _ [["Bonds"; "20%"]]);
    [reflexivity|rows_ok|reflexivity|reflexivity|done|done].
Defined.

Lemma get_tickers_in_category_witness :
  get_tickers_in_category decimal_of_str (StockCategories_init example_rows)
    "Bonds" = Raise UnboundLocalError ∧
  ∃ self, get_tickers_in_category decimal_of_str
            (StockCategories_init example_rows) "Tech"
          = Ok ([Ticker_init "AAPL" ["Tech"]], self).
Proof.
  destruct (get_tickers_in_category_unknown_name decimal_of_str example_rows
              (float_of_int 1000) example_categories example_tickers "Bonds"
              eq_refl) as [Hmissing _].
  destruct (get_tickers_in_category_unknown_name decimal_of_str example_rows
              (float_of_int 1000) example_categories example_tickers "Tech"
              eq_refl) as [_ Hfound].
  split; [exact (Hmissing eq_refl)|exact (Hfound _ eq_refl)].
Defined.

Lemma stock_ticker_marker_witness :
  _load_info_from_csv decimal_of_str
    [ ["Reserved cash amount"; "1000"]; ["Stock ticker"]; ["AAPL"] ]
  = Raise IndexError ∧
  _load_info_from_csv decimal_of_str
    [ ["Reserved cash amount"; "1000"]; ["Stock ticker"; "Categories"];
      ["SPY"; "50"] ]
  = Ok (float_of_int 1000,
        [("SPY", {| Category.name := "SPY"; Category.tickers := [];
                    Category.allocation_percentage := float_of_int 50 |})],
        []).
Proof.
  split.
  - refine (eq_trans (stock_ticker_marker_opens_category_loop decimal_of_str
              [["Reserved cash amount"; "1000"]] ["Stock ticker"] [["AAPL"]]
              _ _) _);
      [rows_ok|reflexivity|reflexivity].
  - refine (eq_trans (stock_ticker_marker_opens_category_loop decimal_of_str
              [["Reserved cash amount"; "1000"]] ["Stock ticker"; "Categories"]
              [["SPY"; "50"]] _ _) _);
      [rows_ok|reflexivity|reflexivity].
Defined.

Lemma unknown_category_witness :
  _load_info_from_csv decimal_of_str
    [ ["Reserved cash amount"; "1000"];
      ["Category"; "Allocation"]; ["Tech"; "50%"];
      ["Stock ticker"; "Categories"]; ["AAPL"; "Tech"];
      ["MSFT"; "Tech"; "Bonds"] ] = Raise KeyError.
Proof.
  eapply (unknown_category_raises_KeyError decimal_of_str _ _ _ _
            [["AAPL"; "Tech"]] ["MSFT"; "Tech"; "Bonds"] [] _ _
            "MSFT" ["Tech"; "Bonds"] "Bonds");
    [reflexivity|reflexivity|reflexivity|reflexivity|done| |reflexivity].
  apply list_elem_of_further, list_elem_of_here.
Defined.

Lemma one_cell_row_witness :
  _load_info_from_csv decimal_of_str
    [ ["Some note"]; ["Reserved cash amount"; ""]; ["Category"] ]
  = Raise IndexError ∧
  _load_info_from_csv decimal_of_str
    [ ["Reserved cash amount"; "1000"]; ["Category"; "Allocation"];
      ["Tech"; "50%"]; ["Bonds"; ""; ""]; ["Stock ticker"] ]
  = Raise IndexError.
Proof.
  destruct (one_cell_row_raises_IndexError decimal_of_str) as [Hset Hcat].
  split.
  - apply (Hset [["Some note"]] ["Reserved cash amount"; ""] [["Category"]] None);
      [rows_ok|reflexivity|reflexivity].
  - eapply (Hcat _ _ [["Tech"; "50%"]] ["Bonds"; ""; ""] [["Stock ticker"]] _
              "Bonds");
      [reflexivity|rows_ok|reflexivity|reflexivity|done|done].
Defined.

(** ** The "Portfolio balance" loop *)

Lemma Qc_max_spec x y :
  (Qc_max x y = x ∨ Qc_max x y = y) ∧ x ≤ Qc_max x y ∧ y ≤ Qc_max x y.
Proof.
  unfold Qc_max. case_decide as Hlt.
  - split_and!; [by right|by apply Qclt_le_weak|done].
  - split_and!; [by left|done|by apply Qcnot_lt_le].
Qed.

Lemma float_of_len_ne_0 {A} (l : list A) : l ≠ [] → float_of_len (length l) ≠ 0.
Proof.
  intros Hl Heq. destruct l as [|a l]; [done|].
  unfold float_of_len, float_of_int in Heq.
  apply Q2Qc_eq_iff in Heq. unfold Qeq in Heq. simpl in Heq. lia.
Qed.

Lemma Qc_sum_cons x l : Qc_sum (x :: l) = x + Qc_sum l.
Proof. done. Qed.

Section BalanceLoop.
Variable data : csv_info.
Variable portfolio : portfolio_dict.
Variable positions : pydict position.

Lemma allocation_step_Cash acc t :
  t.(Ticker.name) = "Cash" →
  allocation_step data portfolio positions acc t
    = Ok (cash_allocation data portfolio).
Proof.
  intros Hname. unfold allocation_step, cash_allocation, Qc_max.
  rewrite decide_True by done. simpl.
  destruct (decide (cash_amount portfolio - minimum_cash_amount_of data < 0))
    as [Hlt|Hge].
  - rewrite decide_False; [done|].
    intros Hpos. by apply (Qclt_not_le _ _ Hlt), Qclt_le_weak.
  - destruct (decide (0 < cash_amount portfolio - minimum_cash_amount_of data))
      as [?|Hle]; [done|].
    f_equal. apply Qcle_antisym; by apply Qcnot_lt_le.
Qed.

Lemma allocation_step_symbol acc t :
  t.(Ticker.name) ≠ "Cash" →
  t.(Ticker.categories) ≠ [] →
  allocation_step data portfolio positions acc t
    = Ok (acc + contribution positions t).
Proof.
  intros Hname Hcats. unfold allocation_step, contribution.
  rewrite decide_False by done.
  destruct (dict_get positions (Ticker.name t)) as [p|].
  - unfold truediv. rewrite decide_False by by apply float_of_len_ne_0.
    done.
  - f_equal. ring.
Qed.

Lemma allocation_loop_app acc pre post :
  allocation_loop data portfolio positions acc (pre ++ post) =
    match allocation_loop data portfolio positions acc pre with
    | Ok acc' => allocation_loop data portfolio positions acc' post
    | Raise e => Raise e
    end.
Proof.
  revert acc. induction pre as [|t pre IH]; intros acc; simpl; [done|].
  by destruct (allocation_step data portfolio positions acc t).
Qed.

Lemma allocation_loop_symbols acc stocks :
  Forall (λ t, t.(Ticker.name) ≠ "Cash" ∧ t.(Ticker.categories) ≠ []) stocks →
  allocation_loop data portfolio positions acc stocks
    = Ok (acc + Qc_sum (contribution positions <$> stocks)).
Proof.
  intros Hstocks. revert acc.
  induction Hstocks as [|t stocks [Hname Hcats] _ IH]; intros acc.
  - simpl. f_equal. unfold Qc_sum. simpl. ring.
  - rewrite fmap_cons, Qc_sum_cons. simpl.
    rewrite allocation_step_symbol, IH by done. f_equal. ring.
Qed.

(** With well-formed tickers the loop never raises. *)
Lemma allocation_loop_total acc stocks :
  Forall (λ t, t.(Ticker.categories) ≠ []) stocks →
  ∃ a, allocation_loop data portfolio positions acc stocks = Ok a.
Proof.
  intros Hstocks. revert acc.
  induction Hstocks as [|t stocks Hcats _ IH]; intros acc; simpl; [by eauto|].
  destruct (decide (Ticker.name t = "Cash")) as [Hname|Hname].
  - rewrite allocation_step_Cash by done. apply IH.
  - rewrite allocation_step_symbol by done. apply IH.
Qed.

End BalanceLoop.

(** ** Categories and their tickers after a successful parse *)

Lemma dict_set_Forall {V} (P : string * V → Prop) (d : pydict V) k v :
  Forall P d → P (k, v) → Forall P (dict_set d k v).
Proof.
  intros Hd Hkv. induction Hd as [|[k' v'] d Hx Hd IH]; simpl.
  - by repeat constructor.
  - case_decide; constructor; done.
Qed.

Lemma dict_keys_set_known {V} (d : pydict V) k v :
  is_Some (dict_get d k) → dict_keys (dict_set d k v) = dict_keys d.
Proof.
  intros Hk%dict_get_is_Some. by rewrite dict_keys_set, decide_True.
Qed.

Lemma register_tickers_NoDup tb ts :
  NoDup (dict_keys tb) → NoDup (dict_keys (register_tickers tb ts)).
Proof.
  revert tb. induction ts as [|t ts IH]; intros tb Htb; simpl; [done|].
  by apply IH, dict_keys_set_NoDup.
Qed.

(** With distinct names, the map holds exactly the declared tickers. *)
Lemma register_tickers_get tb ts n t :
  NoDup (Ticker.name <$> ts) →
  dict_get (register_tickers tb ts) n = Some t ↔
    (t ∈ ts ∧ Ticker.name t = n) ∨
    ((n ∉ Ticker.name <$> ts) ∧ dict_get tb n = Some t).
Proof.
  revert tb. induction ts as [|t0 ts IH]; intros tb.
  - intros _. simpl. split.
    + intros ?. right. split; [apply not_elem_of_nil|done].
    + intros [[[]%elem_of_nil _]|[_ ?]]; done.
  - rewrite fmap_cons. intros [Ht0 Hts]%NoDup_cons. simpl.
    rewrite (IH _ Hts), dict_get_set. split.
    + intros [[Hin Hn]|[Hn Hget]].
      * left. split; [by apply list_elem_of_further|done].
      * case_decide as Hname.
        -- injection Hget as ->. left. split; [apply list_elem_of_here|done].
        -- right. split; [|done]. intros [?|?]%elem_of_cons; done.
    + intros [[[->|Hin]%elem_of_cons Hn]|[Hn Hget]].
      * right. subst n. split; [done|]. by rewrite decide_True.
      * by left.
      * right. apply not_elem_of_cons in Hn as [Hne Hn].
        split; [done|]. by rewrite decide_False.
Qed.

Section RoundTrip.
Variable float_of_str : string → option Qc.

Lemma fresh_categories_nil : fresh_categories [].
Proof. split; [apply NoDup_nil_2|apply Forall_nil_2]. Qed.

Lemma load_categories_fresh reader d d' rest :
  fresh_categories d →
  load_categories float_of_str reader d = Ok (d', rest) →
  fresh_categories d'.
Proof.
  revert d. induction reader as [|r reader IH]; intros d Hd; simpl.
  { by intros [= <- _]. }
  destruct (trim_trailing_empty_values r) as [|k cells]; [by eauto|].
  case_decide; [by eauto|].
  case_decide; [by intros [= <- _]|].
  destruct (list_getitem (k :: cells) 1) as [pct|]; [simpl|done].
  rewrite Category_init_eq.
  destruct (float_of_str (str_remove "%" pct)) as [p|]; [|done].
  apply IH. destruct Hd as [Hnd Hall]. split.
  - by apply dict_keys_set_NoDup.
  - by apply dict_set_Forall.
Qed.

Lemma append_ticker_keys d k t d' :
  append_ticker d k t = Ok d' → dict_keys d' = dict_keys d.
Proof.
  unfold append_ticker, dict_getitem.
  destruct (dict_get d k) as [c|] eqn:Hk; [|done].
  simpl. intros [= <-]. apply dict_keys_set_known. by rewrite Hk.
Qed.

Lemma append_ticker_all_keys d cats t d' :
  append_ticker_all d cats t = Ok d' → dict_keys d' = dict_keys d.
Proof.
  revert d. induction cats as [|k cats IH]; intros d; simpl.
  - by intros [= <-].
  - destruct (append_ticker d k t) as [d1|] eqn:Hk; [|done].
    intros ->%IH. by apply append_ticker_keys in Hk.
Qed.

Lemma append_ticker_all_known d cats t d' k :
  append_ticker_all d cats t = Ok d' → k ∈ cats → k ∈ dict_keys d.
Proof.
  intros Hall Hk. apply dict_get_is_Some.
  destruct (dict_get d k) eqn:Hget; [by eauto|].
  by rewrite (append_ticker_all_unknown d cats t k) in Hall.
Qed.

Lemma load_tickers_keys reader d tb d' tb' :
  load_tickers reader d tb = Ok (d', tb') → dict_keys d' = dict_keys d.
Proof.
  revert d tb. induction reader as [|r reader IH]; intros d tb; simpl.
  { by intros [= <- _]. }
  destruct (trim_trailing_empty_values r) as [|k cats]; [by eauto|].
  case_decide; [by eauto|].
  destruct (append_ticker_all _ _ _) as [d1|] eqn:Hall; [|done].
  intros ->%IH. by apply append_ticker_all_keys in Hall.
Qed.

(** Every category named by a declared ticker exists. *)
Lemma load_tickers_known reader d tb d' tb' t k :
  load_tickers reader d tb = Ok (d', tb') →
  t ∈ declared_tickers reader → k ∈ t.(Ticker.categories) →
  k ∈ dict_keys d.
Proof.
  revert d tb. induction reader as [|r reader IH]; intros d tb; simpl.
  { by intros _ ?%elem_of_nil. }
  unfold declared_tickers. simpl. unfold declared_ticker at 1.
  destruct (trim_trailing_empty_values r) as [|k0 cats]; [by eauto|].
  case_decide; [by eauto|].
  destruct (append_ticker_all _ _ _) as [d1|] eqn:Hall; [|done].
  intros Hload [->|Hin]%elem_of_cons Hk.
  - by apply (append_ticker_all_known _ _ _ _ _ Hall).
  - rewrite <-(append_ticker_all_keys _ _ _ _ Hall). by eapply IH.
Qed.

Lemma load_tickers_tickers reader d tb d' tb' :
  load_tickers reader d tb = Ok (d', tb') →
  tb' = register_tickers tb (declared_tickers reader).
Proof.
  revert d tb. induction reader as [|r reader IH]; intros d tb; simpl.
  { by intros [= _ <-]. }
  unfold declared_tickers. simpl. unfold declared_ticker at 1.
  destruct (trim_trailing_empty_values r) as [|k0 cats]; [by eauto|].
  case_decide; [by eauto|].
  destruct (append_ticker_all _ _ _) as [d1|] eqn:Hall; [|done].
  intros Hload. by apply IH in Hload.
Qed.

Lemma elem_of_memberships k t t' :
  t ∈ memberships k t' ↔ t = t' ∧ k ∈ t'.(Ticker.categories).
Proof.
  unfold memberships. rewrite list_elem_of_fmap. split.
  - intros (k' & -> & [-> Hk]%list_elem_of_filter). done.
  - intros [-> Hk]. exists k. split; [done|]. by apply list_elem_of_filter.
Qed.

(** The three loops behind a successful parse. *)
Lemma loops_of_parse reader m cbn tbn :
  _load_info_from_csv float_of_str reader = Ok (m, cbn, tbn) →
  ∃ rest1 cbn0,
    load_settings float_of_str reader None = Ok (Some m, rest1) ∧
    load_categories float_of_str rest1 []
      = Ok (cbn0, ticker_rows float_of_str reader) ∧
    load_tickers (ticker_rows float_of_str reader) cbn0 [] = Ok (cbn, tbn).
Proof.
  rewrite _load_info_from_csv_unfold. unfold ticker_rows.
  destruct (load_settings float_of_str reader None) as [[m0 rest1]|]; [|done].
  destruct (load_categories float_of_str rest1 []) as [[cbn0 rest2]|] eqn:Hc;
    [|done].
  destruct (load_tickers rest2 cbn0 []) as [[cbn' tbn']|] eqn:Ht; [|done].
  destruct m0 as [x|]; [|done]. intros [= -> -> ->]. by exists rest1, cbn0.
Qed.

(** After a successful parse, a category's key is its name and its ticker
    list holds the memberships of the declared tickers, in order. *)
Lemma parsed_categories reader m cbn tbn :
  _load_info_from_csv float_of_str reader = Ok (m, cbn, tbn) →
  NoDup (dict_keys cbn) ∧
  ∀ k c, (k, c) ∈ cbn →
    dict_get cbn k = Some c ∧
    c.(Category.name) = k ∧
    c.(Category.tickers) =
      declared_tickers (ticker_rows float_of_str reader) ≫= memberships k.
Proof.
  intros (rest1 & cbn0 & Hs & Hc & Ht)%loops_of_parse.
  destruct (load_categories_fresh _ _ _ _ fresh_categories_nil Hc)
    as [Hnd0 Hall0].
  assert (NoDup (dict_keys cbn)) as Hnd.
  { by rewrite (load_tickers_keys _ _ _ _ _ Ht). }
  split; [done|]. intros k c Hkc.
  apply dict_elem_get in Hkc; [|done]. split; [done|].
  rewrite (load_tickers_categories _ _ _ _ _ k Ht) in Hkc.
  destruct (dict_get cbn0 k) as [c0|] eqn:Hk0; [|done].
  injection Hkc as <-.
  apply dict_get_Some_elem in Hk0.
  rewrite Forall_forall in Hall0. destruct (Hall0 _ Hk0) as [Hname Htickers].
  simpl in *. by rewrite Hname, Htickers.
Qed.

Lemma parsed_tickers reader m cbn tbn :
  _load_info_from_csv float_of_str reader = Ok (m, cbn, tbn) →
  tbn = register_tickers [] (declared_tickers (ticker_rows float_of_str reader)).
Proof.
  intros (rest1 & cbn0 & Hs & Hc & Ht)%loops_of_parse.
  by apply load_tickers_tickers in Ht.
Qed.

(** The categories named by a declared ticker exist after the parse. *)
Lemma parsed_memberships reader m cbn tbn t k :
  _load_info_from_csv float_of_str reader = Ok (m, cbn, tbn) →
  t ∈ declared_tickers (ticker_rows float_of_str reader) →
  k ∈ t.(Ticker.categories) →
  k ∈ dict_keys cbn.
Proof.
  intros (rest1 & cbn0 & Hs & Hc & Ht)%loops_of_parse Hin Hk.
  rewrite (load_tickers_keys _ _ _ _ _ Ht).
  by apply (load_tickers_known _ _ _ _ _ _ _ Ht Hin).
Qed.

(** What the accessors return on a successful parse. *)
Lemma parsed_categories_of reader m cbn tbn :
  _load_info_from_csv float_of_str reader = Ok (m, cbn, tbn) →
  categories_of (m, cbn, tbn) = Ok (dict_values cbn).
Proof.
  intros [Hnd _]%parsed_categories. by apply mapM_dict_getitem_keys.
Qed.

Lemma parsed_tickers_in_category reader m cbn tbn k c :
  _load_info_from_csv float_of_str reader = Ok (m, cbn, tbn) →
  (k, c) ∈ cbn →
  tickers_in_category (m, cbn, tbn) c.(Category.name)
    = Ok c.(Category.tickers).
Proof.
  intros [_ Hall]%parsed_categories Hkc.
  destruct (Hall _ _ Hkc) as (Hget & Hname & _).
  unfold tickers_in_category, dict_getitem. by rewrite Hname, Hget.
Qed.

Lemma parsed_tickers_of_categories reader m cbn tbn :
  _load_info_from_csv float_of_str reader = Ok (m, cbn, tbn) →
  mapM (λ c, tickers_in_category (m, cbn, tbn) c.(Category.name))
    (dict_values cbn) = Ok (Category.tickers <$> dict_values cbn).
Proof.
  intros Hload. unfold dict_values.
  assert (∀ l : pydict Category.t, l ⊆ cbn →
    mapM (λ c, tickers_in_category (m, cbn, tbn) c.(Category.name)) l.*2
      = Ok (Category.tickers <$> l.*2)) as Hl.
  { induction l as [|[k c] l IH]; intros Hsub; [done|].
    rewrite !fmap_cons. cbn [mapM snd].
    rewrite (parsed_tickers_in_category _ _ _ _ k c Hload)
      by apply Hsub, list_elem_of_here.
    rewrite bind_Ok, IH; [done|].
    intros x Hx. apply Hsub. by apply list_elem_of_further. }
  by apply Hl.
Qed.

(** The tickers found in the categories' lists are the declared tickers
    that name at least one category. *)
Lemma parsed_category_tickers reader m cbn tbn t :
  _load_info_from_csv float_of_str reader = Ok (m, cbn, tbn) →
  t ∈ mjoin (Category.tickers <$> dict_values cbn) ↔
    t ∈ declared_tickers (ticker_rows float_of_str reader) ∧
    t.(Ticker.categories) ≠ [].
Proof.
  intros Hload. destruct (parsed_categories _ _ _ _ Hload) as [Hnd Hall].
  rewrite list_elem_of_join. split.
  - intros (ts & Hin & (c & -> & ([k c'] & -> & Hkc)%list_elem_of_fmap)
                       %list_elem_of_fmap).
    destruct (Hall _ _ Hkc) as (_ & _ & Hts). simpl in Hin.
    rewrite Hts in Hin.
    apply list_elem_of_bind in Hin as (t' & [-> Hk]%elem_of_memberships & Ht').
    split; [done|]. intros Hnil. rewrite Hnil in Hk. by apply elem_of_nil in Hk.
  - intros [Hin Hcats].
    destruct (Ticker.categories t) as [|k cats] eqn:Hk; [done|].
    assert (k ∈ Ticker.categories t) as Hkin by (rewrite Hk; apply list_elem_of_here).
    pose proof (parsed_memberships _ _ _ _ _ _ Hload Hin Hkin) as Hkey.
    apply dict_get_is_Some in Hkey as [c Hc].
    apply dict_get_Some_elem in Hc.
    destruct (Hall _ _ Hc) as (_ & _ & Hts).
    exists (Category.tickers c). split.
    + rewrite Hts. apply list_elem_of_bind. exists t.
      split; [by apply elem_of_memberships|done].
    + apply list_elem_of_fmap. exists c. split; [done|].
      apply list_elem_of_fmap. by exists (k, c).
Qed.

(** Every ticker of a parsed category names at least one category, so the
    split of its value never divides by zero. *)
Lemma parsed_tickers_have_categories reader data k stocks :
  _load_info_from_csv float_of_str reader = Ok data →
  tickers_in_category data k = Ok stocks →
  Forall (λ t, t.(Ticker.categories) ≠ []) stocks.
Proof.
  destruct data as [[m cbn] tbn]. intros Hload.
  unfold tickers_in_category, dict_getitem.
  destruct (dict_get cbn k) as [c|] eqn:Hk; [|done].
  simpl. intros [= <-]. apply Forall_forall. intros t Ht.
  apply (parsed_category_tickers _ _ _ _ t Hload).
  apply list_elem_of_join. exists (Category.tickers c). split; [done|].
  apply list_elem_of_fmap. exists c. split; [done|].
  apply list_elem_of_fmap. exists (k, c). split; [done|].
  by apply dict_get_Some_elem.
Qed.

End RoundTrip.

(** ** Cash and weight splitting *)

Section BalanceClaims.
Variable data : csv_info.
Variable portfolio : portfolio_dict.
Variable positions : pydict position.

(** C1 (amended). Reaching "Cash" sets the running allocation to
    [max(0, cash_amount - minimum_cash_amount)] whatever had been
    accumulated. Hence, for a category of a loaded configuration whose
    ticker list has a "Cash" entry, the allocation is that amount plus the
    contributions of the real symbols listed after the last "Cash": it is
    the cash amount alone when "Cash" comes last, and in general depends on
    the order of the list. *)
Theorem cash_overwrites_running_allocation :
  (∀ acc t,
     t.(Ticker.name) = "Cash" →
     allocation_step data portfolio positions acc t
       = Ok (cash_allocation data portfolio)) ∧
  (∀ float_of_str reader k pre t post,
     _load_info_from_csv float_of_str reader = Ok data →
     tickers_in_category data k = Ok (pre ++ t :: post) →
     t.(Ticker.name) = "Cash" →
     Forall (λ t, t.(Ticker.name) ≠ "Cash") post →
     allocation_loop data portfolio positions 0 (pre ++ t :: post)
       = Ok (cash_allocation data portfolio
             + Qc_sum (contribution positions <$> post))) ∧
  (∀ float_of_str reader k pre t,
     _load_info_from_csv float_of_str reader = Ok data →
     tickers_in_category data k = Ok (pre ++ [t]) →
     t.(Ticker.name) = "Cash" →
     allocation_loop data portfolio positions 0 (pre ++ [t])
       = Ok (cash_allocation data portfolio)).
Proof.
  split_and!.
  - apply allocation_step_Cash.
  - intros float_of_str reader k pre t post Hload Hstocks Hname Hsym.
    pose proof (parsed_tickers_have_categories _ _ _ _ _ Hload Hstocks)
      as [Hpre [_ Hpost]%Forall_cons]%Forall_app.
    rewrite allocation_loop_app.
    destruct (allocation_loop_total data portfolio positions 0 pre Hpre)
      as [a ->].
    simpl. rewrite allocation_step_Cash by done.
    apply allocation_loop_symbols.
    apply Forall_and. by split.
  - intros float_of_str reader k pre t Hload Hstocks Hname.
    pose proof (parsed_tickers_have_categories _ _ _ _ _ Hload Hstocks)
      as [Hpre _]%Forall_app.
    rewrite allocation_loop_app.
    destruct (allocation_loop_total data portfolio positions 0 pre Hpre)
      as [a ->].
    simpl. by rewrite allocation_step_Cash.
Qed.

(** C2 (amended). A real symbol held in the portfolio and declared with
    K >= 1 categories adds [total_value / K] to the running allocation of
    the category being computed; one that is not held adds nothing and
    raises nothing. Hence, for a category of a loaded configuration whose
    ticker list has no "Cash" entry and for a non-zero equity, the actual
    percentage is
    [100 * (sum of these contributions) / equity]. After a successful
    parse, a declared ticker is in the ticker list of each category of its
    row. *)
Theorem weight_splitting :
  (∀ acc t p,
     t.(Ticker.name) ≠ "Cash" →
     t.(Ticker.categories) ≠ [] →
     dict_get positions t.(Ticker.name) = Some p →
     allocation_step data portfolio positions acc t
       = Ok (acc + p.(total_value)
                   / float_of_len (length t.(Ticker.categories)))) ∧
  (∀ acc t,
     t.(Ticker.name) ≠ "Cash" →
     dict_get positions t.(Ticker.name) = None →
     allocation_step data portfolio positions acc t = Ok acc) ∧
  (∀ float_of_str reader category stocks,
     _load_info_from_csv float_of_str reader = Ok data →
     tickers_in_category data category.(Category.name) = Ok stocks →
     Forall (λ t, t.(Ticker.name) ≠ "Cash") stocks →
     portfolio.(equity) ≠ 0 →
     ∃ row,
       balance_of_category data portfolio positions category = Ok row ∧
       row.(row_actual) =
         hundred * Qc_sum (contribution positions <$> stocks)
         / portfolio.(equity)) ∧
  (∀ float_of_str reader t k,
     _load_info_from_csv float_of_str reader = Ok data →
     t ∈ declared_tickers (ticker_rows float_of_str reader) →
     k ∈ t.(Ticker.categories) →
     ∃ stocks, tickers_in_category data k = Ok stocks ∧ t ∈ stocks).
Proof.
  split_and!.
  - intros acc t p Hname Hcats Hp.
    rewrite allocation_step_symbol by done. unfold contribution. by rewrite Hp.
  - intros acc t Hname Hp. unfold allocation_step.
    by rewrite decide_False, Hp by done.
  - intros float_of_str reader category stocks Hload Hstocks Hsym Hequity.
    pose proof (parsed_tickers_have_categories _ _ _ _ _ Hload Hstocks)
      as Hcats.
    unfold balance_of_category. rewrite Hstocks. simpl.
    rewrite allocation_loop_symbols by (by apply Forall_and). simpl.
    unfold truediv. rewrite decide_False by done. simpl.
    eexists. split; [done|]. simpl. f_equal. ring.
  - intros float_of_str reader t k Hload Hin Hk.
    destruct data as [[m cbn] tbn].
    pose proof (parsed_memberships _ _ _ _ _ _ _ Hload Hin Hk) as Hkey.
    apply dict_get_is_Some in Hkey as [c Hc].
    apply dict_get_Some_elem in Hc.
    destruct (parsed_categories _ _ _ _ _ Hload) as [_ Hall].
    destruct (Hall _ _ Hc) as (_ & Hname & Hts).
    exists (Category.tickers c). split.
    + rewrite <-Hname. by apply (parsed_tickers_in_category _ _ _ _ _ k c Hload).
    + rewrite Hts. apply list_elem_of_bind. exists t.
      split; [by apply elem_of_memberships|done].
Qed.

End BalanceClaims.

Local Ltac Qc_values :=
  vm_compute;
  first [ apply Qc_is_canon; reflexivity
        | apply (f_equal Ok); apply Qc_is_canon; reflexivity ].

Lemma cash_overwrites_witness :
  allocation_step cash_last_data example_portfolio example_positions
    (float_of_int 1500) (Ticker_init "Cash" ["Mixed"])
    = Ok (cash_allocation cash_last_data example_portfolio) ∧
  allocation_loop cash_first_data example_portfolio example_positions 0
    [Ticker_init "Cash" ["Mixed"]; Ticker_init "AAPL" ["Mixed"]]
    = Ok (cash_allocation cash_first_data example_portfolio
          + Qc_sum (contribution example_positions
                      <$> [Ticker_init "AAPL" ["Mixed"]])) ∧
  allocation_loop cash_last_data example_portfolio example_positions 0
    [Ticker_init "AAPL" ["Mixed"]; Ticker_init "Cash" ["Mixed"]]
    = Ok (cash_allocation cash_last_data example_portfolio).
Proof.
  split_and!.
  - apply (proj1 (cash_overwrites_running_allocation cash_last_data
                    example_portfolio example_positions)).
    reflexivity.
  - apply (proj1 (proj2 (cash_overwrites_running_allocation cash_first_data
                           example_portfolio example_positions))
             decimal_of_str cash_first_rows "Mixed"
             [] (Ticker_init "Cash" ["Mixed"]) [Ticker_init "AAPL" ["Mixed"]]);
      [reflexivity|reflexivity|reflexivity|repeat constructor; by vm_compute].
  - apply (proj2 (proj2 (cash_overwrites_running_allocation cash_last_data
                           example_portfolio example_positions))
             decimal_of_str cash_last_rows "Mixed"
             [Ticker_init "AAPL" ["Mixed"]] (Ticker_init "Cash" ["Mixed"]));
      [reflexivity|reflexivity|reflexivity].
Defined.

(** C1 as stated fails when a held symbol is listed after "Cash": with
    2000 in cash, 1000 reserved and 1500 of AAPL, the category gets 2500. *)
Lemma cash_before_symbol_counterexample :
  _load_info_from_csv decimal_of_str cash_first_rows = Ok cash_first_data ∧
  tickers_in_category cash_first_data "Mixed"
    = Ok [Ticker_init "Cash" ["Mixed"]; Ticker_init "AAPL" ["Mixed"]] ∧
  allocation_loop cash_first_data example_portfolio example_positions 0
    [Ticker_init "Cash" ["Mixed"]; Ticker_init "AAPL" ["Mixed"]]
    = Ok (float_of_int 2500) ∧
  cash_allocation cash_first_data example_portfolio = float_of_int 1000 ∧
  allocation_loop cash_first_data example_portfolio example_positions 0
    [Ticker_init "Cash" ["Mixed"]; Ticker_init "AAPL" ["Mixed"]]
    ≠ Ok (cash_allocation cash_first_data example_portfolio).
Proof.
  assert (allocation_loop cash_first_data example_portfolio example_positions 0
            [Ticker_init "Cash" ["Mixed"]; Ticker_init "AAPL" ["Mixed"]]
          = Ok (float_of_int 2500)) as Hloop by Qc_values.
  assert (cash_allocation cash_first_data example_portfolio
          = float_of_int 1000) as Hcash by Qc_values.
  split_and!; [reflexivity|reflexivity|exact Hloop|exact Hcash|].
  rewrite Hloop, Hcash. intros Heq.
  assert (float_of_int 2500 = float_of_int 1000) as Hq by congruence.
  apply (f_equal this) in Hq. by vm_compute in Hq.
Qed.

Lemma weight_splitting_witness :
  allocation_step example_data example_portfolio example_positions
    (float_of_int 7) (Ticker_init "AAPL" ["Tech"; "Growth"])
    = Ok (float_of_int 7 + float_of_int 1500 / float_of_len 2) ∧
  allocation_step example_data example_portfolio example_positions
    (float_of_int 7) (Ticker_init "MSFT" ["Tech"]) = Ok (float_of_int 7) ∧
  (∃ row,
     balance_of_category example_data example_portfolio example_positions
       {| Category.name := "Tech";
          Category.tickers := [Ticker_init "AAPL" ["Tech"]];
          Category.allocation_percentage := float_of_int 50 |} = Ok row ∧
     row.(row_actual) =
       hundred * Qc_sum (contribution example_positions
                           <$> [Ticker_init "AAPL" ["Tech"]])
       / float_of_int 10000) ∧
  (∃ stocks, tickers_in_category example_data "Tech" = Ok stocks ∧
             Ticker_init "AAPL" ["Tech"] ∈ stocks).
Proof.
  destruct (weight_splitting example_data example_portfolio example_positions)
    as (Hheld & Habsent & Hactual & Hmember).
  split_and!.
  - apply (Hheld _ (Ticker_init "AAPL" ["Tech"; "Growth"]) example_aapl);
      [by vm_compute|by vm_compute|reflexivity].
  - apply (Habsent _ (Ticker_init "MSFT" ["Tech"]));
      [by vm_compute|reflexivity].
  - apply (Hactual decimal_of_str example_rows _ [Ticker_init "AAPL" ["Tech"]]);
      [reflexivity|reflexivity|repeat constructor; by vm_compute|].
    intros Heq. apply (f_equal this) in Heq. by vm_compute in Heq.
  - apply (Hmember decimal_of_str example_rows (Ticker_init "AAPL" ["Tech"]));
      [reflexivity| |].
    + apply (bool_decide_unpack _). by vm_compute.
    + apply list_elem_of_here.
Defined.

(** C2 as stated fails for a category that also lists "Cash" after the
    symbol: the 1500 of AAPL are added, then overwritten, and the actual
    percentage is 10 where the sum of the contributions gives 15. *)
Lemma symbol_before_cash_counterexample :
  _load_info_from_csv decimal_of_str cash_last_rows = Ok cash_last_data ∧
  tickers_in_category cash_last_data "Mixed"
    = Ok [Ticker_init "AAPL" ["Mixed"]; Ticker_init "Cash" ["Mixed"]] ∧
  (∃ row,
     balance_of_category cash_last_data example_portfolio example_positions
       {| Category.name := "Mixed";
          Category.tickers :=
            [Ticker_init "AAPL" ["Mixed"]; Ticker_init "Cash" ["Mixed"]];
          Category.allocation_percentage := float_of_int 60 |} = Ok row ∧
     row.(row_actual) = float_of_int 10) ∧
  hundred * Qc_sum (contribution example_positions
                      <$> [Ticker_init "AAPL" ["Mixed"]])
    / example_portfolio.(equity) = float_of_int 15 ∧
  float_of_int 10 ≠ float_of_int 15.
Proof.
  split_and!; [reflexivity|reflexivity| |Qc_values|].
  - eexists. split; [reflexivity|]. Qc_values.
  - intros Heq. apply (f_equal this) in Heq. by vm_compute in Heq.
Qed.

(** The end-to-end example of the specification: Tech is at 15% for an
    ideal of 50%, Cash at 10% for an ideal of 10%. *)
Example end_to_end_balance :
  ∃ tech cash,
    portfolio_balance example_data example_portfolio example_positions
      = Ok [tech; cash] ∧
    tech.(row_category) = "Tech" ∧ tech.(row_holdings) = ["AAPL"] ∧
    tech.(row_actual) = float_of_int 15 ∧
    tech.(row_needed) = float_of_int 35 ∧
    cash.(row_category) = "Cash" ∧ cash.(row_holdings) = ["Cash"] ∧
    cash.(row_actual) = float_of_int 10 ∧
    cash.(row_needed) = 0.
Proof.
  do 2 eexists. split; [reflexivity|].
  split_and!; try reflexivity; Qc_values.
Qed.

(** ** Round trip between categories and tickers *)

Section RoundTripClaim.
Variable float_of_str : string → option Qc.

(** C9 (amended). After a successful parse, the set of ticker names
    returned by [get_tickers_in_category] over all categories is the set of
    names that some row of the ticker section declares with a non-empty
    category list. It is the set of names of the ticker map whose category
    list is non-empty provided no name is declared by two rows: the map
    keeps the last declaration of a name only, while the categories keep the
    tickers of all of them. *)
Theorem round_trip_ticker_names reader m cbn tbn :
  _load_info_from_csv float_of_str reader = Ok (m, cbn, tbn) →
  ∃ names,
    category_ticker_names (m, cbn, tbn) = Ok names ∧
    names = list_to_set
              (Ticker.name <$>
                 filter (λ t, t.(Ticker.categories) ≠ [])
                   (declared_tickers (ticker_rows float_of_str reader))) ∧
    (NoDup (Ticker.name <$> declared_tickers (ticker_rows float_of_str reader)) →
     names = categorized_ticker_names (m, cbn, tbn)).
Proof.
  intros Hload.
  exists (list_to_set
            (Ticker.name <$> mjoin (Category.tickers <$> dict_values cbn))).
  split_and!.
  - unfold category_ticker_names.
    rewrite (parsed_categories_of _ _ _ _ _ Hload), bind_Ok.
    by rewrite (parsed_tickers_of_categories _ _ _ _ _ Hload), bind_Ok.
  - apply set_eq. intros n.
    rewrite !elem_of_list_to_set, !list_elem_of_fmap.
    split; intros (t & -> & Ht); exists t; (split; [done|]).
    + apply list_elem_of_filter.
      by apply (parsed_category_tickers _ _ _ _ _ _ Hload) in Ht as [? ?].
    + apply list_elem_of_filter in Ht as [? ?].
      by apply (parsed_category_tickers _ _ _ _ _ _ Hload).
  - intros Hdistinct. apply set_eq. intros n.
    unfold categorized_ticker_names.
    rewrite !elem_of_list_to_set, !list_elem_of_fmap.
    pose proof (parsed_tickers _ _ _ _ _ Hload) as Htbn.
    assert (NoDup (dict_keys tbn)) as Hnd.
    { rewrite Htbn. apply register_tickers_NoDup, NoDup_nil_2. }
    split.
    + intros (t & -> & [Hin Hcats]%(parsed_category_tickers _ _ _ _ _ _ Hload)).
      exists (Ticker.name t, t). split; [done|].
      apply list_elem_of_filter. split; [done|].
      apply dict_get_Some_elem. rewrite Htbn.
      apply register_tickers_get; [done|]. by left.
    + intros ([k t] & -> & [Hcats Hkt]%list_elem_of_filter). simpl in *.
      apply dict_elem_get in Hkt; [|done]. rewrite Htbn in Hkt.
      apply register_tickers_get in Hkt as [[Hin Hname]|[_ ?]]; [|done|done].
      exists t. split; [done|].
      by apply (parsed_category_tickers _ _ _ _ _ _ Hload).
Qed.

End RoundTripClaim.

Lemma round_trip_witness :
  ∃ names,
    category_ticker_names example_data = Ok names ∧
    names = list_to_set ["AAPL"; "Cash"] ∧
    names = categorized_ticker_names example_data.
Proof.
  destruct (round_trip_ticker_names decimal_of_str example_rows
              (float_of_int 1000) example_categories example_tickers eq_refl)
    as (names & Hnames & Hdeclared & Hmap).
  exists names. split_and!; [exact Hnames|exact Hdeclared|].
  apply Hmap. apply (bool_decide_unpack _). by vm_compute.
Defined.

(** C9 as stated fails when a name is declared again without categories. *)
Lemma redeclared_ticker_counterexample :
  _load_info_from_csv decimal_of_str redeclared_rows = Ok redeclared_data ∧
  category_ticker_names redeclared_data = Ok {["AAPL"]} ∧
  categorized_ticker_names redeclared_data = ∅ ∧
  ({["AAPL"]} : gset string) ≠ ∅.
Proof.
  split_and!; [reflexivity|by vm_compute|by vm_compute|].
  intros Heq. apply (f_equal (λ s : gset string, bool_decide ("AAPL" ∈ s))) in Heq.
  by vm_compute in Heq.
Qed.

(** ** Position enrichment *)

Section Positions.
Variable float_of_str : string → option Qc.
Variable session_get : string → instrument_json.
Variable quote_data : string → quote_json.

Lemma enrich_position_total p :
  enrichable float_of_str session_get quote_data p →
  ∃ e, enrich_position float_of_str session_get quote_data p = Ok e.
Proof.
  intros ([q Hq] & [a Ha] & [c Hc] & pc & Hpc & Hnz).
  unfold enrich_position, py_float.
  rewrite Hq, Ha. simpl. rewrite Hc, Hpc. simpl. unfold truediv.
  rewrite (decide_False (P := pc = 0)) by done. simpl.
  destruct (decide (q * a = 0)); simpl; by eauto.
Qed.

Lemma update_positions_loop_total positions results :
  Forall (enrichable float_of_str session_get quote_data) positions →
  ∃ results',
    update_positions_loop float_of_str session_get quote_data positions results
      = Ok results'.
Proof.
  intros Hpos. revert results.
  induction Hpos as [|p positions Hp _ IH]; intros results; simpl; [by eauto|].
  apply enrich_position_total in Hp as [e ->]. apply IH.
Qed.

End Positions.

(** * Further properties of the code *)

(** ** Trimming of rows *)

Lemma trim_loop_spec (l : list string) n :
  (trim_loop l n ≤ n)%nat ∧
  (∀ i, (trim_loop l n ≤ i)%nat → (i < n)%nat → l !! i = Some "") ∧
  (∀ k, trim_loop l n = S k → l !! k ≠ Some "").
Proof.
  induction n as [|n (Hle & Hempty & Hlast)]; simpl.
  - split_and!; [lia|lia|done].
  - case_decide as Hn.
    + split_and!; [lia| |done].
      intros i Hi Hlt. destruct (decide (i = n)) as [->|]; [done|].
      apply Hempty; lia.
    + split_and!; [lia|lia|]. by intros k [= <-].
Qed.

Lemma trim_fixed (l : list string) :
  last l ≠ Some "" → trim_trailing_empty_values l = l.
Proof.
  intros Hlast. unfold trim_trailing_empty_values.
  destruct (length l) as [|n] eqn:Hlen.
  - by apply nil_length_inv in Hlen as ->.
  - simpl. rewrite last_lookup, Hlen in Hlast. simpl in Hlast.
    rewrite decide_False by done. rewrite <-Hlen. apply firstn_all.
Qed.

Lemma trim_trailing_empty_values_last (l : list string) :
  last (trim_trailing_empty_values l) ≠ Some "".
Proof.
  unfold trim_trailing_empty_values.
  destruct (trim_loop_spec l (length l)) as (Hle & _ & Hlast).
  rewrite last_lookup, length_take, Nat.min_l by done.
  destruct (trim_loop l (length l)) as [|k'] eqn:Hk; [done|]. simpl.
  rewrite lookup_take_lt by lia. by apply Hlast.
Qed.

(** X1. [trim_trailing_empty_values] removes the empty cells at the end of
    a row and nothing else: the row is its result followed by empty cells
    only, and the result does not end with an empty cell. *)
Theorem trim_trailing_empty_values_spec (l : list string) :
  (∃ n, l = trim_trailing_empty_values l ++ replicate n "") ∧
  last (trim_trailing_empty_values l) ≠ Some "".
Proof.
  split; [|apply trim_trailing_empty_values_last].
  unfold trim_trailing_empty_values.
  destruct (trim_loop_spec l (length l)) as (Hle & Hempty & _).
  set (k := trim_loop l (length l)) in *.
  exists (length l - k)%nat. apply list_eq. intros i.
  destruct (decide (i < k)%nat) as [Hi|Hi].
  - rewrite lookup_app_l by (rewrite length_take; lia).
    by rewrite lookup_take_lt.
  - rewrite lookup_app_r by (rewrite length_take; lia).
    rewrite length_take, Nat.min_l by done.
    destruct (decide (i < length l)%nat) as [Hlt|Hge].
    + rewrite Hempty by lia. symmetry. apply lookup_replicate. split; [done|lia].
    + rewrite lookup_ge_None_2 by lia. symmetry.
      apply lookup_ge_None_2. rewrite length_replicate. lia.
Qed.

(** Trimming is idempotent: a trimmed row is left as it is. *)
Lemma trim_trailing_empty_values_idemp (l : list string) :
  trim_trailing_empty_values (trim_trailing_empty_values l)
    = trim_trailing_empty_values l.
Proof. apply trim_fixed, trim_trailing_empty_values_last. Qed.

Section TrimmedRows.
Variable float_of_str : string → option Qc.

Lemma load_settings_trimmed reader m :
  load_settings float_of_str (trim_trailing_empty_values <$> reader) m =
    match load_settings float_of_str reader m with
    | Ok (m', rest) => Ok (m', trim_trailing_empty_values <$> rest)
    | Raise e => Raise e
    end.
Proof.
  revert m. induction reader as [|r reader IH]; intros m; [done|].
  rewrite fmap_cons. simpl. rewrite trim_trailing_empty_values_idemp.
  destruct (trim_trailing_empty_values r) as [|k cells]; [done|].
  case_decide; [done|]. case_decide; [done|]. case_decide; [|done].
  by destruct (try_except _ _ _).
Qed.

Lemma load_categories_trimmed reader d :
  load_categories float_of_str (trim_trailing_empty_values <$> reader) d =
    match load_categories float_of_str reader d with
    | Ok (d', rest) => Ok (d', trim_trailing_empty_values <$> rest)
    | Raise e => Raise e
    end.
Proof.
  revert d. induction reader as [|r reader IH]; intros d; [done|].
  rewrite fmap_cons. simpl. rewrite trim_trailing_empty_values_idemp.
  destruct (trim_trailing_empty_values r) as [|k cells]; [done|].
  case_decide; [done|]. case_decide; [done|].
  by destruct (_ ≫= _).
Qed.

Lemma load_tickers_trimmed reader d t :
  load_tickers (trim_trailing_empty_values <$> reader) d t
    = load_tickers reader d t.
Proof.
  revert d t. induction reader as [|r reader IH]; intros d t; [done|].
  rewrite fmap_cons. simpl. rewrite trim_trailing_empty_values_idemp.
  destruct (trim_trailing_empty_values r) as [|k cells]; [done|].
  case_decide; [done|]. by destruct (append_ticker_all _ _ _).
Qed.

(** X2. The reader sees a row through its trimmed form only: trimming every
    row beforehand changes neither the parsed configuration nor the error. *)
Theorem parse_of_trimmed_rows reader :
  _load_info_from_csv float_of_str (trim_trailing_empty_values <$> reader)
    = _load_info_from_csv float_of_str reader.
Proof.
  rewrite !_load_info_from_csv_unfold, load_settings_trimmed.
  destruct (load_settings float_of_str reader None) as [[m rest1]|]; [|done].
  rewrite load_categories_trimmed.
  destruct (load_categories float_of_str rest1 []) as [[cbn0 rest2]|]; [|done].
  by rewrite load_tickers_trimmed.
Qed.

End TrimmedRows.

(** ** Rows that the reader skips *)

Section SkippedRows.
Variable float_of_str : string → option Qc.

Lemma _load_info_from_csv_stages reader :
  _load_info_from_csv float_of_str reader =
    match load_settings float_of_str reader None with
    | Raise e => Raise e
    | Ok (m, rest) => categories_then_tickers float_of_str rest [] m
    end.
Proof.
  rewrite _load_info_from_csv_unfold.
  unfold categories_then_tickers, tickers_then_check.
  destruct (load_settings float_of_str reader None) as [[m rest1]|]; [|done].
  by destruct (load_categories float_of_str rest1 []) as [[cbn0 rest2]|].
Qed.

Lemma tickers_then_check_skip pre r post d tb m :
  trim_trailing_empty_values r = [] ∨ row_key r = Some "Stock ticker" →
  tickers_then_check (pre ++ r :: post) d tb m
    = tickers_then_check (pre ++ post) d tb m.
Proof.
  intros Hr. unfold tickers_then_check.
  rewrite !(load_tickers_app pre).
  destruct (load_tickers pre d tb) as [[d' tb']|]; [|done].
  simpl. unfold row_key in Hr.
  destruct (trim_trailing_empty_values r) as [|k cells]; [done|].
  destruct Hr as [|[= ->]]; [done|]. by rewrite decide_True.
Qed.

Lemma categories_then_tickers_skip pre r post d m :
  trim_trailing_empty_values r = [] →
  categories_then_tickers float_of_str (pre ++ r :: post) d m
    = categories_then_tickers float_of_str (pre ++ post) d m.
Proof.
  intros Hr. revert d. induction pre as [|r' pre IH]; intros d.
  - unfold categories_then_tickers. simpl. by rewrite Hr.
  - unfold categories_then_tickers in *. simpl.
    destruct (trim_trailing_empty_values r') as [|k cells]; [by apply IH|].
    case_decide; [by apply IH|].
    case_decide; [by apply (tickers_then_check_skip _ r); left|].
    destruct (_ ≫= _); [by apply IH|done].
Qed.

(** X3. A blank row, or a row of empty cells only, is skipped wherever it
    stands: removing it changes neither the parsed configuration nor the
    error. *)
Theorem blank_row_is_skipped pre r post :
  trim_trailing_empty_values r = [] →
  _load_info_from_csv float_of_str (pre ++ r :: post)
    = _load_info_from_csv float_of_str (pre ++ post).
Proof.
  intros Hr. rewrite !_load_info_from_csv_stages.
  generalize (None : option Qc).
  induction pre as [|r' pre IH]; intros m; simpl.
  - by rewrite Hr.
  - destruct (trim_trailing_empty_values r') as [|k cells]; [by apply IH|].
    case_decide; [by apply categories_then_tickers_skip|].
    case_decide; [by apply categories_then_tickers_skip|].
    case_decide; [|by apply IH].
    destruct (try_except _ _ _); [by apply IH|done].
Qed.

(** X4. In the settings section a row with an unrecognised key is only
    warned about: removing it changes neither the parsed configuration nor
    the error. *)
Theorem unrecognised_setting_is_ignored pre r post k :
  Forall settings_row pre →
  row_key r = Some k →
  k ≠ "Category" → k ≠ "Stock ticker" → k ≠ "Reserved cash amount" →
  _load_info_from_csv float_of_str (pre ++ r :: post)
    = _load_info_from_csv float_of_str (pre ++ post).
Proof.
  intros Hpre Hr Hk1 Hk2 Hk3. rewrite !_load_info_from_csv_stages.
  rewrite !(load_settings_app _ pre) by done.
  destruct (load_settings float_of_str pre None) as [[m rest]|]; [|done].
  simpl. unfold row_key in Hr.
  destruct (trim_trailing_empty_values r) as [|k' cells]; [done|].
  injection Hr as ->. by rewrite !decide_False by done.
Qed.

Lemma load_settings_marker mk rest m :
  section_marker mk → load_settings float_of_str (mk :: rest) m = Ok (m, rest).
Proof.
  unfold section_marker, row_key. simpl.
  destruct (trim_trailing_empty_values mk) as [|k cells]; [by intros [|]|].
  intros [[= ->]|[= ->]]; [done|]. by rewrite decide_False, decide_True.
Qed.

Lemma load_categories_marker tk rest d :
  row_key tk = Some "Stock ticker" →
  load_categories float_of_str (tk :: rest) d = Ok (d, rest).
Proof.
  unfold row_key. simpl.
  destruct (trim_trailing_empty_values tk) as [|k cells]; [done|].
  intros [= ->]. by rewrite decide_False, decide_True.
Qed.

(** The input up to and including the first marker: settings only. *)
Lemma _load_info_from_csv_settings s mk rest :
  Forall settings_row s → section_marker mk →
  _load_info_from_csv float_of_str (s ++ mk :: rest) =
    match load_settings float_of_str s None with
    | Raise e => Raise e
    | Ok (m, _) => categories_then_tickers float_of_str rest [] m
    end.
Proof.
  intros Hs Hmk. rewrite _load_info_from_csv_stages, load_settings_app by done.
  destruct (load_settings float_of_str s None) as [[m ?]|]; [|done].
  by rewrite load_settings_marker.
Qed.

(** X5. A header row met again inside its own section is skipped: a
    "Category" row read by the category loop and a "Stock ticker" row read by
    the ticker loop can be removed without changing the parsed configuration
    or the error. *)
Theorem repeated_header_is_skipped :
  (∀ s mk pre r post,
     Forall settings_row s → section_marker mk →
     Forall categories_row pre →
     row_key r = Some "Category" →
     _load_info_from_csv float_of_str (s ++ mk :: pre ++ r :: post)
       = _load_info_from_csv float_of_str (s ++ mk :: pre ++ post)) ∧
  (∀ s mk c tk pre r post,
     Forall settings_row s → section_marker mk →
     Forall categories_row c → row_key tk = Some "Stock ticker" →
     row_key r = Some "Stock ticker" →
     _load_info_from_csv float_of_str (s ++ mk :: c ++ tk :: pre ++ r :: post)
       = _load_info_from_csv float_of_str (s ++ mk :: c ++ tk :: pre ++ post)).
Proof.
  split.
  - intros s mk pre r post Hs Hmk Hpre Hr.
    rewrite !_load_info_from_csv_settings by done.
    destruct (load_settings float_of_str s None) as [[m ?]|]; [|done].
    unfold categories_then_tickers.
    rewrite !(load_categories_app _ pre) by done.
    destruct (load_categories float_of_str pre []) as [[d rest]|]; [|done].
    simpl. unfold row_key in Hr.
    destruct (trim_trailing_empty_values r) as [|k cells]; [done|].
    injection Hr as ->. by rewrite decide_True.
  - intros s mk c tk pre r post Hs Hmk Hc Htk Hr.
    rewrite !_load_info_from_csv_settings by done.
    destruct (load_settings float_of_str s None) as [[m ?]|]; [|done].
    unfold categories_then_tickers.
    rewrite !(load_categories_app _ c) by done.
    destruct (load_categories float_of_str c []) as [[d rest]|]; [|done].
    rewrite !load_categories_marker by done.
    apply tickers_then_check_skip. by right.
Qed.

End SkippedRows.

(** ** The reserved cash amount *)

Section ReservedCash.
Variable float_of_str : string → option Qc.

Lemma load_settings_quiet mid m :
  Forall quiet_row mid → load_settings float_of_str mid m = Ok (m, []).
Proof.
  intros Hmid. induction Hmid as [|r mid [[Hc Hs] Hr] _ IH]; [done|].
  simpl. unfold row_key in *.
  destruct (trim_trailing_empty_values r) as [|k cells]; [done|].
  simpl in *. by rewrite !decide_False by congruence.
Qed.

Lemma load_settings_reserved r rest m v cells :
  trim_trailing_empty_values r = "Reserved cash amount" :: v :: cells →
  load_settings float_of_str (r :: rest) m =
    match float_of_str v with
    | Some x => load_settings float_of_str rest (Some x)
    | None => Raise ValueError
    end.
Proof.
  simpl. intros ->. simpl. unfold py_float. by destruct (float_of_str v).
Qed.

Lemma categories_then_tickers_minimum reader d x data :
  categories_then_tickers float_of_str reader d (Some x) = Ok data →
  minimum_cash_amount_of data = x.
Proof.
  unfold categories_then_tickers, tickers_then_check.
  destruct (load_categories float_of_str reader d) as [[cbn0 rest]|]; [|done].
  destruct (load_tickers rest cbn0 []) as [[cbn tbn]|]; [|done].
  by intros [= <-].
Qed.

(** The parse of an input whose settings section ends with a readable
    "Reserved cash amount" row followed by quiet rows. *)
Lemma _load_info_from_csv_reserved pre r mid post v cells x :
  Forall settings_row pre →
  trim_trailing_empty_values r = "Reserved cash amount" :: v :: cells →
  float_of_str v = Some x →
  Forall quiet_row mid →
  settings_end post →
  _load_info_from_csv float_of_str (pre ++ r :: mid ++ post) =
    match load_settings float_of_str pre None with
    | Raise e => Raise e
    | Ok _ => categories_then_tickers float_of_str (tail post) [] (Some x)
    end.
Proof.
  intros Hpre Hr Hv Hmid Hpost.
  rewrite _load_info_from_csv_stages, load_settings_app by done.
  destruct (load_settings float_of_str pre None) as [[m0 ?]|]; [|done].
  rewrite (load_settings_reserved _ _ _ v cells), Hv by done.
  rewrite load_settings_app, load_settings_quiet by
    (done || by eapply Forall_impl; [done|intros ? [? _]]).
  destruct Hpost as [->|(mk & rest & -> & Hmk)]; [done|].
  by rewrite load_settings_marker.
Qed.

(** X6. The reserved cash amount of a parsed configuration is the value of
    the last "Reserved cash amount" row of the settings section: an earlier
    such row is overwritten, and no row after the first marker sets it. *)
Theorem last_reserved_cash_amount_wins pre r mid post v cells x data :
  Forall settings_row pre →
  trim_trailing_empty_values r = "Reserved cash amount" :: v :: cells →
  float_of_str v = Some x →
  Forall quiet_row mid →
  settings_end post →
  _load_info_from_csv float_of_str (pre ++ r :: mid ++ post) = Ok data →
  minimum_cash_amount_of data = x.
Proof.
  intros Hpre Hr Hv Hmid Hpost.
  rewrite (_load_info_from_csv_reserved _ _ _ _ v cells x) by done.
  destruct (load_settings float_of_str pre None) as [[m0 ?]|]; [|done].
  apply categories_then_tickers_minimum.
Qed.

(** X7. A "Reserved cash amount" row whose value is not a number ends the
    parse with [ValueError]: the handler around [float] is for [TypeError]
    and never runs. *)
Theorem malformed_reserved_cash_raises_ValueError pre r post m v cells :
  Forall settings_row pre →
  load_settings float_of_str pre None = Ok (m, []) →
  trim_trailing_empty_values r = "Reserved cash amount" :: v :: cells →
  float_of_str v = None →
  _load_info_from_csv float_of_str (pre ++ r :: post) = Raise ValueError.
Proof.
  intros Hpre Hset Hr Hv.
  rewrite _load_info_from_csv_stages, load_settings_app, Hset by done.
  by rewrite (load_settings_reserved _ _ _ v cells), Hv.
Qed.

(** X8. A configuration whose reserved cash amount is zero is accepted by
    the reader, and makes the "Reserved cash" line of the report raise
    [ZeroDivisionError]; for any other amount the line shows the cash, the
    reserve and [100 * cash / reserve]. *)
Theorem reserved_cash_line_of_parse pre r mid post v cells x data portfolio :
  Forall settings_row pre →
  trim_trailing_empty_values r = "Reserved cash amount" :: v :: cells →
  float_of_str v = Some x →
  Forall quiet_row mid →
  settings_end post →
  _load_info_from_csv float_of_str (pre ++ r :: mid ++ post) = Ok data →
  reserved_cash_line data portfolio =
    if decide (x = 0) then Raise ZeroDivisionError
    else Ok (portfolio.(cash_amount), x,
             hundred * portfolio.(cash_amount) / x).
Proof.
  intros Hpre Hr Hv Hmid Hpost.
  rewrite (_load_info_from_csv_reserved _ _ _ _ v cells x) by done.
  destruct (load_settings float_of_str pre None) as [[m0 ?]|]; [|done].
  intros <-%categories_then_tickers_minimum.
  unfold reserved_cash_line, truediv. by case_decide.
Qed.

End ReservedCash.

(** ** The missing setting and the end of the input *)

Section EndOfInput.
Variable float_of_str : string → option Qc.










End EndOfInput.



(** ** The accessors on a parsed configuration *)

Lemma register_tickers_get_last tb ts n :
  dict_get (register_tickers tb ts) n =
    match last (filter (λ t, Ticker.name t = n) ts) with
    | Some t => Some t
    | None => dict_get tb n
    end.
Proof.
  revert tb. induction ts as [|t0 ts IH]; intros tb; [done|].
  simpl. rewrite IH, filter_cons, dict_get_set.
  destruct (decide (Ticker.name t0 = n)) as [Hn|Hn]; [|done].
  rewrite last_cons. by destruct (last (filter _ ts)).
Qed.

Section Accessors.
Variable float_of_str : string → option Qc.

(** X9. On a parsed configuration [get_categories_of_stock_ticker] returns
    the categories of the last row that declares the ticker, and raises
    [TickerNotFoundError] exactly when no row of the ticker section declares
    it. *)
Theorem get_categories_of_stock_ticker_of_parse reader data stock_ticker :
  _load_info_from_csv float_of_str reader = Ok data →
  get_categories_of_stock_ticker float_of_str (StockCategories_init reader)
    stock_ticker =
    match last (filter (λ t, Ticker.name t = stock_ticker)
                  (declared_tickers (ticker_rows float_of_str reader))) with
    | Some t =>
        Ok (t.(Ticker.categories),
            {| _categories_csv_file := reader; csv_data := Some data |})
    | None => Raise TickerNotFoundError
    end.
Proof.
  intros Hload. unfold get_categories_of_stock_ticker, load_info_from_csv.
  simpl. rewrite Hload. simpl. destruct data as [[m cbn] tbn].
  rewrite (parsed_tickers _ _ _ _ _ Hload).
  unfold categories_of_stock_ticker, dict_getitem.
  rewrite register_tickers_get_last.
  by destruct (last (filter _ _)).
Qed.

(** X10. On a parsed configuration the ticker list of a category holds the
    tickers declared by the rows of the ticker section that name the
    category, in the order of the rows, each once per mention of the
    category in its row. *)
Theorem get_tickers_in_category_of_parse reader data category_name stocks :
  _load_info_from_csv float_of_str reader = Ok data →
  tickers_in_category data category_name = Ok stocks →
  stocks =
    declared_tickers (ticker_rows float_of_str reader)
      ≫= memberships category_name.
Proof.
  destruct data as [[m cbn] tbn]. intros Hload.
  destruct (parsed_categories _ _ _ _ _ Hload) as [_ Hall].
  unfold tickers_in_category, dict_getitem.
  destruct (dict_get cbn category_name) as [c|] eqn:Hget; [|done].
  simpl. intros [= <-]. apply dict_get_Some_elem in Hget.
  by destruct (Hall _ _ Hget) as (_ & _ & Hts).
Qed.

Lemma first_occurrences_from_NoDup seen l :
  NoDup seen → NoDup (first_occurrences_from seen l).
Proof.
  revert seen. induction l as [|k l IH]; intros seen Hseen; [done|].
  simpl. apply IH. case_decide; [done|].
  apply NoDup_app. split_and!; [done| |apply NoDup_singleton].
  by intros x Hx ->%list_elem_of_singleton.
Qed.

Lemma load_categories_keys reader d d' rest :
  load_categories float_of_str reader d = Ok (d', rest) →
  dict_keys d' =
    first_occurrences_from (dict_keys d) (declared_category_names reader).
Proof.
  revert d. induction reader as [|r reader IH]; intros d; simpl.
  { by intros [= <- _]. }
  destruct (trim_trailing_empty_values r) as [|k cells]; [by eauto|].
  case_decide; [by eauto|].
  case_decide; [by intros [= <- _]|].
  destruct (_ ≫= _) as [c|]; [|done].
  intros ->%IH. simpl. by rewrite dict_keys_set.
Qed.

(** X11. On a parsed configuration [get_categories] returns one category
    per declared name, in the order in which the names first appear in the
    category section, and each under its own name. *)
Theorem get_categories_of_parse reader data :
  _load_info_from_csv float_of_str reader = Ok data →
  ∃ categories,
    categories_of data = Ok categories ∧
    Category.name <$> categories =
      first_occurrences
        (declared_category_names (category_rows float_of_str reader)) ∧
    NoDup (Category.name <$> categories).
Proof.
  destruct data as [[m cbn] tbn]. intros Hload.
  exists (dict_values cbn).
  destruct (parsed_categories _ _ _ _ _ Hload) as [Hnd Hall].
  assert (Category.name <$> dict_values cbn = dict_keys cbn) as Hnames.
  { unfold dict_values, dict_keys. rewrite <-list_fmap_compose.
    apply list_fmap_ext. intros i [k c] Hkc%list_elem_of_lookup_2. simpl.
    by destruct (Hall _ _ Hkc) as (_ & ? & _). }
  split_and!.
  - by apply (parsed_categories_of _ _ _ _ _ Hload).
  - rewrite Hnames.
    apply loops_of_parse in Hload as (rest1 & cbn0 & Hs & Hc & Ht).
    rewrite (load_tickers_keys _ _ _ _ _ Ht).
    rewrite (load_categories_keys _ _ _ _ Hc).
    unfold category_rows. by rewrite Hs.
  - by rewrite Hnames.
Qed.

End Accessors.

(** ** The warnings of [main] *)

Lemma uncategorized_loop_spec m cbn tbn ticker_names acc :
  uncategorized_loop (m, cbn, tbn) ticker_names acc =
    Ok (acc ++ filter (λ s, dict_get tbn s = None) ticker_names).
Proof.
  revert acc. induction ticker_names as [|s names IH]; intros acc; simpl.
  - by rewrite app_nil_r.
  - rewrite filter_cons. unfold dict_getitem.
    destruct (dict_get tbn s) as [t|]; simpl.
    + apply IH.
    + by rewrite IH, <-app_assoc.
Qed.

Section Warnings.
Variable float_of_str : string → option Qc.

(** X12. On a parsed configuration the warning lists, in the order of the
    positions, exactly the held symbols that no row of the ticker section
    declares; a symbol declared without any category is not reported, and
    the loop never raises. *)
Theorem uncategorized_tickers_of_parse reader data positions :
  _load_info_from_csv float_of_str reader = Ok data →
  uncategorized_tickers data positions =
    Ok (filter
          (λ s, s ∉ Ticker.name
                      <$> declared_tickers (ticker_rows float_of_str reader))
          (dict_keys positions)).
Proof.
  destruct data as [[m cbn] tbn]. intros Hload.
  unfold uncategorized_tickers. rewrite uncategorized_loop_spec. simpl.
  f_equal. apply list_filter_iff. intros s.
  rewrite (parsed_tickers _ _ _ _ _ Hload), register_tickers_get_last.
  destruct (last (filter _ _)) as [t|] eqn:Hlast.
  - split; [done|]. intros Hs. exfalso. apply Hs.
    apply last_Some_elem_of, list_elem_of_filter in Hlast as [<- Hin].
    by apply list_elem_of_fmap_2.
  - split; [|done]. intros _ (t & -> & Hin)%list_elem_of_fmap.
    apply last_None in Hlast.
    by apply (filter_nil_not_elem_of _ _ t) in Hlast.
Qed.

End Warnings.

(** ** The positions dictionary *)

Section PositionsDictionary.
Variable float_of_str : string → option Qc.
Variable session_get : string → instrument_json.
Variable quote_data : string → quote_json.

Lemma enrich_position_symbol p e :
  enrich_position float_of_str session_get quote_data p = Ok e →
  e.(symbol) = symbol_of session_get p.
Proof.
  unfold enrich_position, py_float.
  destruct (float_of_str (raw_quantity p)) as [q|]; [|done].
  destruct (float_of_str (raw_average_buy_price p)) as [a|]; [|done].
  destruct (float_of_str (last_trade_price _)) as [c|]; [|done].
  destruct (float_of_str (previous_close _)) as [pc|]; [|done].
  simpl. unfold truediv.
  destruct (decide (pc = 0)); simpl; [done|].
  destruct (decide (q * a = 0)); simpl; by intros [= <-].
Qed.

Lemma update_positions_loop_get positions results0 results s :
  update_positions_loop float_of_str session_get quote_data positions results0
    = Ok results →
  dict_get results s =
    match last (filter (λ p, symbol_of session_get p = s) positions) with
    | Some p =>
        match enrich_position float_of_str session_get quote_data p with
        | Ok e => Some e
        | Raise _ => None
        end
    | None => dict_get results0 s
    end.
Proof.
  revert results0. induction positions as [|p positions IH]; intros results0.
  - simpl. by intros [= <-].
  - simpl.
    destruct (enrich_position float_of_str session_get quote_data p)
      as [e|] eqn:He; [|done].
    intros ->%IH. rewrite filter_cons.
    rewrite (enrich_position_symbol _ _ He), dict_get_set.
    destruct (decide (symbol_of session_get p = s)) as [Hs|Hs]; [|done].
    rewrite last_cons. destruct (last (filter _ positions)); [done|].
    by rewrite He.
Qed.

(** X14. [positions_dictionary] is keyed by symbol and the last write wins:
    the entry of a symbol is the enrichment of the last raw position with
    that symbol, it carries that symbol, and a symbol of no raw position has
    no entry. *)
Theorem positions_dictionary_last_write_wins positions results s :
  _update_positions_dictionary float_of_str session_get quote_data positions
    = Ok results →
  match last (filter (λ p, symbol_of session_get p = s) positions) with
  | Some p =>
      ∃ e, enrich_position float_of_str session_get quote_data p = Ok e ∧
           dict_get results s = Some e ∧ e.(symbol) = s
  | None => dict_get results s = None
  end.
Proof.
  intros Hres. unfold _update_positions_dictionary in Hres.
  rewrite (update_positions_loop_get _ _ _ s Hres).
  destruct (last (filter _ positions)) as [p|] eqn:Hlast; [|done].
  apply last_Some_elem_of, list_elem_of_filter in Hlast as [Hs Hin].
  assert (∃ e, enrich_position float_of_str session_get quote_data p = Ok e)
    as [e He].
  { clear Hs. revert Hres. generalize ([] : pydict position).
    induction positions as [|p' positions IH]; intros results0; simpl.
    { by apply elem_of_nil in Hin. }
    destruct (enrich_position float_of_str session_get quote_data p')
      as [e'|] eqn:He'; [|done].
    apply elem_of_cons in Hin as [->|Hin]; [by eauto|by eauto]. }
  exists e. rewrite He. split_and!; [done|done|].
  by rewrite (enrich_position_symbol _ _ He).
Qed.

(** X15. The enrichment is all or nothing: when a raw position cannot be
    enriched, whatever came before it, the whole update raises its error and
    no dictionary is returned; in particular a previous close of zero raises
    [ZeroDivisionError]. *)
Theorem positions_dictionary_all_or_nothing pre p post :
  Forall (enrichable float_of_str session_get quote_data) pre →
  (∀ e,
     enrich_position float_of_str session_get quote_data p = Raise e →
     _update_positions_dictionary float_of_str session_get quote_data
       (pre ++ p :: post) = Raise e) ∧
  (is_Some (float_of_str p.(raw_quantity)) →
   is_Some (float_of_str p.(raw_average_buy_price)) →
   is_Some (float_of_str
              (quote_data (symbol_of session_get p)).(last_trade_price)) →
   float_of_str (quote_data (symbol_of session_get p)).(previous_close)
     = Some 0 →
   _update_positions_dictionary float_of_str session_get quote_data
     (pre ++ p :: post) = Raise ZeroDivisionError).
Proof.
  intros Hpre.
  assert (∀ e results0,
    enrich_position float_of_str session_get quote_data p = Raise e →
    update_positions_loop float_of_str session_get quote_data
      (pre ++ p :: post) results0 = Raise e) as Hloop.
  { intros e results0 He. revert results0.
    induction Hpre as [|p' pre Hp' _ IH]; intros results0; simpl.
    - by rewrite He.
    - apply enrich_position_total in Hp' as [e' ->]. apply IH. }
  split.
  - intros e He. by apply Hloop.
  - intros [q Hq] [a Ha] [c Hc] Hpc. apply Hloop.
    unfold symbol_of in Hc, Hpc. unfold enrich_position, py_float.
    rewrite Hq, Ha. simpl. rewrite Hc, Hpc. simpl.
    unfold truediv. by destruct (decide (0 = 0)).
Qed.

End PositionsDictionary.

(** ** The return of a position, over any float arithmetic *)

Section Enrichment.
Variable F : FloatArith.ops.
Variable session_get : string → instrument_json.
Variable quote_data : string → quote_json.

(** What the body of the loop stores, from the numbers that it reads. *)
Lemma float_enrich_position_Ok p e :
  FloatArith.enrich_position F session_get quote_data p = Ok e →
  e.(FloatArith.symbol) = symbol_of session_get p ∧
  ∃ q a c,
    FloatArith.of_str F p.(raw_quantity) = Some q ∧
    FloatArith.of_str F p.(raw_average_buy_price) = Some a ∧
    FloatArith.of_str F
      (quote_data (symbol_of session_get p)).(last_trade_price) = Some c ∧
    e.(FloatArith.quantity) = q ∧
    e.(FloatArith.average_buy_price) = a ∧
    e.(FloatArith.current_price) = c ∧
    e.(FloatArith.total_cost) = FloatArith.mul F q a ∧
    e.(FloatArith.total_value) = FloatArith.mul F q c ∧
    e.(FloatArith.total_return_amount) =
      FloatArith.sub F (FloatArith.mul F q c) (FloatArith.mul F q a) ∧
    e.(FloatArith.total_return_percent) =
      if FloatArith.eqb F (FloatArith.mul F q a) (FloatArith.of_int F 0)
      then FloatArith.Int 0
      else FloatArith.Float
             (FloatArith.mul F
                (FloatArith.div F
                   (FloatArith.sub F (FloatArith.mul F q c)
                      (FloatArith.mul F q a))
                   (FloatArith.mul F q a))
                (FloatArith.of_int F 100)).
Proof.
  unfold FloatArith.enrich_position, FloatArith.py_float, symbol_of.
  destruct (FloatArith.of_str F (raw_quantity p)) as [q|]; [|done].
  destruct (FloatArith.of_str F (raw_average_buy_price p)) as [a|]; [|done].
  destruct (FloatArith.of_str F (last_trade_price _)) as [c|]; [|done].
  destruct (FloatArith.of_str F (previous_close _)) as [pc|]; [|done].
  simpl. unfold FloatArith.truediv.
  destruct (FloatArith.eqb F pc _); simpl; [done|].
  destruct (FloatArith.eqb F (FloatArith.mul F q a) _) eqn:Hz; simpl;
    intros [= <-]; simpl; (split; [done|]); exists q, a, c; rewrite Hz;
    by split_and!.
Qed.

Lemma float_enrich_position_total p :
  enrichable_in F session_get quote_data p →
  ∃ e, FloatArith.enrich_position F session_get quote_data p = Ok e.
Proof.
  intros ([q Hq] & [a Ha] & [c Hc] & pc & Hpc & Hnz).
  unfold symbol_of in Hc, Hpc.
  unfold FloatArith.enrich_position, FloatArith.py_float.
  rewrite Hq, Ha. simpl. rewrite Hc, Hpc. simpl.
  unfold FloatArith.truediv. rewrite Hnz. simpl.
  destruct (FloatArith.eqb F (FloatArith.mul F q a) _); simpl; by eauto.
Qed.

Lemma float_update_positions_loop_total positions results :
  Forall (enrichable_in F session_get quote_data) positions →
  ∃ results',
    FloatArith.update_positions_loop F session_get quote_data positions results
      = Ok results'.
Proof.
  intros Hpos. revert results.
  induction Hpos as [|p positions Hp _ IH]; intros results; simpl; [by eauto|].
  apply float_enrich_position_total in Hp as [e ->]. apply IH.
Qed.

(** A loop that returns has enriched each of its positions. *)
Lemma float_update_positions_loop_all positions results0 results :
  FloatArith.update_positions_loop F session_get quote_data positions results0
    = Ok results →
  Forall (λ p, ∃ e, FloatArith.enrich_position F session_get quote_data p = Ok e)
    positions.
Proof.
  revert results0. induction positions as [|p positions IH]; intros results0.
  - intros _. constructor.
  - simpl.
    destruct (FloatArith.enrich_position F session_get quote_data p)
      as [e|] eqn:He; [|done].
    intros Hres%IH. constructor; [by eauto|done].
Qed.

(** The entry of a symbol is that of the last position with the symbol. *)
Lemma float_update_positions_loop_get positions results0 results s :
  FloatArith.update_positions_loop F session_get quote_data positions results0
    = Ok results →
  dict_get results s =
    match last (filter (λ p, symbol_of session_get p = s) positions) with
    | Some p =>
        match FloatArith.enrich_position F session_get quote_data p with
        | Ok e => Some e
        | Raise _ => None
        end
    | None => dict_get results0 s
    end.
Proof.
  revert results0. induction positions as [|p positions IH]; intros results0.
  - simpl. by intros [= <-].
  - simpl.
    destruct (FloatArith.enrich_position F session_get quote_data p)
      as [e|] eqn:He; [|done].
    intros ->%IH. rewrite filter_cons.
    destruct (float_enrich_position_Ok _ _ He) as [-> _].
    rewrite dict_get_set.
    destruct (decide (symbol_of session_get p = s)) as [Hs|Hs]; [|done].
    rewrite last_cons. destruct (last (filter _ positions)); [done|].
    by rewrite He.
Qed.

(** C8 (amended). Whatever the float arithmetic, [positions_dictionary] is
    built when the four numbers of every raw position can be read and no
    previous close is zero, and then a symbol has an entry exactly when a raw
    position carries it. The entry comes from the last such position: its
    [quantity], [average_buy_price] and [current_price] are the numbers read
    from that position and from the quote of the symbol, [total_cost] is
    [quantity * average_buy_price], [total_value] is
    [quantity * current_price] and [total_return_amount] their difference. If
    [total_cost == 0] then [total_return_percent] is the integer 0, whatever
    the current price; otherwise it is
    [((total_value - total_cost) / total_cost) * 100], the quotient being
    rounded before it is multiplied. *)
Theorem total_return_percent_of_entry positions :
  (Forall (enrichable_in F session_get quote_data) positions →
   ∃ results,
     FloatArith._update_positions_dictionary F session_get quote_data positions
       = Ok results) ∧
  (∀ results s,
     FloatArith._update_positions_dictionary F session_get quote_data positions
       = Ok results →
     match last (filter (λ p, symbol_of session_get p = s) positions) with
     | None => dict_get results s = None
     | Some p =>
         ∃ q a c e,
           FloatArith.of_str F p.(raw_quantity) = Some q ∧
           FloatArith.of_str F p.(raw_average_buy_price) = Some a ∧
           FloatArith.of_str F (quote_data s).(last_trade_price) = Some c ∧
           dict_get results s = Some e ∧
           e.(FloatArith.symbol) = s ∧
           e.(FloatArith.quantity) = q ∧
           e.(FloatArith.average_buy_price) = a ∧
           e.(FloatArith.current_price) = c ∧
           e.(FloatArith.total_cost) = FloatArith.mul F q a ∧
           e.(FloatArith.total_value) = FloatArith.mul F q c ∧
           e.(FloatArith.total_return_amount) =
             FloatArith.sub F (FloatArith.mul F q c) (FloatArith.mul F q a) ∧
           e.(FloatArith.total_return_percent) =
             if FloatArith.eqb F (FloatArith.mul F q a) (FloatArith.of_int F 0)
             then FloatArith.Int 0
             else FloatArith.Float
                    (FloatArith.mul F
                       (FloatArith.div F
                          (FloatArith.sub F (FloatArith.mul F q c)
                             (FloatArith.mul F q a))
                          (FloatArith.mul F q a))
                       (FloatArith.of_int F 100))
     end).
Proof.
  split.
  - intros Hpos. by apply float_update_positions_loop_total.
  - intros results s Hres. unfold FloatArith._update_positions_dictionary in Hres.
    rewrite (float_update_positions_loop_get _ _ _ s Hres).
    destruct (last (filter _ positions)) as [p|] eqn:Hlast; [|done].
    apply last_Some_elem_of, list_elem_of_filter in Hlast as [Hs Hin].
    apply float_update_positions_loop_all in Hres.
    rewrite Forall_forall in Hres. destruct (Hres _ Hin) as [e He].
    rewrite He.
    destruct (float_enrich_position_Ok _ _ He)
      as (Hsym & q & a & c & Hq & Ha & Hc & Hfields).
    rewrite Hs in Hc, Hsym. by exists q, a, c, e.
Qed.

End Enrichment.

(** The loop of the development is this loop over the exact rationals. *)
Lemma enrich_position_exact float_of_str session_get quote_data p :
  enrich_position float_of_str session_get quote_data p =
    match FloatArith.enrich_position (exact_floats float_of_str) session_get
            quote_data p with
    | Ok e => Ok (exact_position e)
    | Raise x => Raise x
    end.
Proof.
  unfold enrich_position, FloatArith.enrich_position, py_float,
    FloatArith.py_float. simpl.
  destruct (float_of_str (raw_quantity p)) as [q|]; [|done].
  destruct (float_of_str (raw_average_buy_price p)) as [a|]; [|done].
  simpl.
  destruct (float_of_str (last_trade_price _)) as [c|]; [|done].
  destruct (float_of_str (previous_close _)) as [pc|]; [|done].
  simpl. unfold truediv, FloatArith.truediv. simpl.
  change (float_of_int 0) with 0.
  destruct (decide (pc = 0)) as [Hpc|Hpc];
    [rewrite (bool_decide_eq_true_2 _ Hpc)
    |rewrite (bool_decide_eq_false_2 _ Hpc)]; simpl; [done|].
  destruct (decide (q * a = 0)) as [Hz|Hz];
    [rewrite (bool_decide_eq_true_2 _ Hz)
    |rewrite (bool_decide_eq_false_2 _ Hz)]; simpl; [|done].
  unfold exact_position. simpl. by do 2 f_equal.
Qed.

Lemma dict_set_fmap {A B} (f : A → B) (d : pydict A) k v :
  dict_set (prod_map id f <$> d) k (f v) = prod_map id f <$> dict_set d k v.
Proof.
  induction d as [|[k' v'] d IH]; [done|].
  rewrite fmap_cons. simpl. case_decide; [done|].
  by rewrite fmap_cons, IH.
Qed.

Lemma update_positions_loop_exact float_of_str session_get quote_data
    positions results :
  update_positions_loop float_of_str session_get quote_data positions
    (prod_map (@id string) exact_position <$> results) =
    match FloatArith.update_positions_loop (exact_floats float_of_str)
            session_get quote_data positions results with
    | Ok results' => Ok (prod_map (@id string) exact_position <$> results')
    | Raise x => Raise x
    end.
Proof.
  revert results. induction positions as [|p positions IH]; intros results;
    [done|].
  simpl. rewrite enrich_position_exact.
  destruct (FloatArith.enrich_position _ _ _ p) as [e|]; [|done].
  change (symbol (exact_position e)) with (FloatArith.symbol e).
  by rewrite dict_set_fmap, IH.
Qed.

Lemma _update_positions_dictionary_exact float_of_str session_get quote_data
    positions :
  _update_positions_dictionary float_of_str session_get quote_data positions =
    match FloatArith._update_positions_dictionary (exact_floats float_of_str)
            session_get quote_data positions with
    | Ok results => Ok (prod_map (@id string) exact_position <$> results)
    | Raise x => Raise x
    end.
Proof. apply (update_positions_loop_exact _ _ _ _ []). Qed.

Lemma total_return_percent_witness :
  ∃ results (aapl free : FloatArith.position binary64),
    FloatArith._update_positions_dictionary binary64 example_session_get
      example_quote_data example_raw_positions = Ok results ∧
    dict_get results "AAPL" = Some aapl ∧
    aapl.(FloatArith.total_cost) = binary64_of_int 1000 ∧
    aapl.(FloatArith.total_value) = binary64_of_int 1500 ∧
    aapl.(FloatArith.total_return_percent)
      = @FloatArith.Float binary64 (binary64_of_int 50) ∧
    dict_get results "FREE" = Some free ∧
    binary64_of_str "7.50" = Some free.(FloatArith.current_price) ∧
    free.(FloatArith.total_return_percent) = FloatArith.Int 0.
Proof.
  destruct (total_return_percent_of_entry binary64 example_session_get
              example_quote_data example_raw_positions) as [Htotal Hlaw].
  destruct Htotal as [results Hres].
  { apply Forall_cons_2; [|apply Forall_cons_2; [|apply Forall_nil_2]];
      unfold enrichable_in; cbv zeta;
      (split_and!; [by eexists|by eexists|by eexists|]);
      (eexists; split; reflexivity). }
  destruct (Hlaw results "AAPL" Hres)
    as (q & a & c & aapl & Hq & Ha & Hc & Hget & _ & _ & _ & _ & Hcost & Hvalue
        & _ & Hpercent).
  change (Some (binary64_of_int 10) = Some q) in Hq.
  change (Some (binary64_of_int 100) = Some a) in Ha.
  change (Some (binary64_of_int 150) = Some c) in Hc.
  injection Hq as <-. injection Ha as <-. injection Hc as <-.
  destruct (Hlaw results "FREE" Hres)
    as (q' & a' & c' & free & Hq' & Ha' & Hc' & Hget' & _ & _ & _ & Hprice & _
        & _ & _ & Hpercent').
  change (Some (binary64_of_int 1) = Some q') in Hq'.
  change (Some (binary64_of_int 0) = Some a') in Ha'.
  injection Hq' as <-. injection Ha' as <-.
  exists results, aapl, free.
  split_and!; [exact Hres|exact Hget| | | |exact Hget'| |].
  - rewrite Hcost. by vm_compute.
  - rewrite Hvalue. by vm_compute.
  - rewrite Hpercent.
    match goal with
    | |- (if ?b then _ else _) = _ => replace b with false by (by vm_compute)
    end.
    f_equal; by vm_compute.
  - rewrite Hprice. exact Hc'.
  - rewrite Hpercent'.
    match goal with
    | |- (if ?b then _ else _) = _ => replace b with true by (by vm_compute)
    end.
    done.
Defined.

(** The claimed formula, [100 * (total_value - total_cost) / total_cost],
    is not what an entry holds in double precision: for one share bought at
    3 and quoted at 4 the entry holds 33.33333333333333, the double
    [4691249611844266 * 2^-47], and the formula gives 33.333333333333336, the
    next double. *)
Lemma return_percent_rounding_counterexample :
  FloatArith._update_positions_dictionary binary64 third_session_get
    third_quote_data third_raw_positions = Ok [("XYZ", third_entry)] ∧
  FloatArith.eqb binary64 third_entry.(FloatArith.total_cost)
    (FloatArith.of_int binary64 0) = false ∧
  third_entry.(FloatArith.total_return_percent)
    = @FloatArith.Float binary64
        (SpecFloat.S754_finite false 4691249611844266 (-47)) ∧
  FloatArith.div binary64
    (FloatArith.mul binary64 (FloatArith.of_int binary64 100)
       (FloatArith.sub binary64 third_entry.(FloatArith.total_value)
          third_entry.(FloatArith.total_cost)))
    third_entry.(FloatArith.total_cost)
    = SpecFloat.S754_finite false 4691249611844267 (-47) ∧
  third_entry.(FloatArith.total_return_percent) ≠
    @FloatArith.Float binary64
      (FloatArith.div binary64
         (FloatArith.mul binary64 (FloatArith.of_int binary64 100)
            (FloatArith.sub binary64 third_entry.(FloatArith.total_value)
               third_entry.(FloatArith.total_cost)))
         third_entry.(FloatArith.total_cost)).
Proof.
  split_and!; [reflexivity|by vm_compute|reflexivity|by vm_compute|].
  by intros [=].
Qed.


(** ** The balance table *)

Lemma mapM_result_cons {A B} (f : A → result B) x l :
  mapM f (x :: l) =
    match f x with
    | Raise e => Raise e
    | Ok y =>
        match mapM f l with
        | Raise e => Raise e
        | Ok ys => Ok (y :: ys)
        end
    end.
Proof. cbn [mapM]. destruct (f x); [simpl|done]. by destruct (mapM f l). Qed.

Lemma mapM_result_Forall2 {A B} (f : A → result B) (R : A → B → Prop) l :
  (∀ x, x ∈ l → ∃ y, f x = Ok y ∧ R x y) →
  ∃ ys, mapM f l = Ok ys ∧ Forall2 R l ys.
Proof.
  induction l as [|x l IH]; intros Hl.
  - exists []. by split.
  - destruct (Hl x) as (y & Hy & HR); [apply list_elem_of_here|].
    destruct IH as (ys & Hys & HRs).
    { intros x' Hx'. apply Hl. by apply list_elem_of_further. }
    exists (y :: ys). rewrite mapM_result_cons, Hy, Hys.
    split; [done|by constructor].
Qed.

Lemma mapM_result_inv {A B} (f : A → result B) l ys :
  mapM f l = Ok ys → Forall2 (λ x y, f x = Ok y) l ys.
Proof.
  revert ys. induction l as [|x l IH]; intros ys.
  - intros [= <-]. constructor.
  - rewrite mapM_result_cons. destruct (f x) as [y|] eqn:Hy; [|done].
    destruct (mapM f l) as [ys'|]; [|done].
    intros [= <-]. constructor; [done|by apply IH].
Qed.

Section BalanceTable.
Variable float_of_str : string → option Qc.
Variable portfolio : portfolio_dict.
Variable positions : pydict position.

(** The loop over the tickers of a parsed category never raises. *)
Lemma parsed_allocation_total reader m cbn tbn k c :
  _load_info_from_csv float_of_str reader = Ok (m, cbn, tbn) →
  (k, c) ∈ cbn →
  tickers_in_category (m, cbn, tbn) c.(Category.name)
    = Ok c.(Category.tickers) ∧
  ∃ a, allocation_loop (m, cbn, tbn) portfolio positions 0
         c.(Category.tickers) = Ok a.
Proof.
  intros Hload Hkc.
  pose proof (parsed_tickers_in_category _ _ _ _ _ _ _ Hload Hkc) as Hts.
  split; [done|]. apply allocation_loop_total.
  by apply (parsed_tickers_have_categories _ _ _ _ _ Hload Hts).
Qed.

(** X16. On a parsed configuration and with a non-zero equity the balance
    table is computed without error and has one line per category, in the
    order of [get_categories]: each line carries the category's name and
    ideal percentage, the names of its tickers in the order of its list, and
    [needed = ideal - actual]. *)
Theorem portfolio_balance_of_parse reader data :
  _load_info_from_csv float_of_str reader = Ok data →
  portfolio.(equity) ≠ 0 →
  ∃ categories rows,
    categories_of data = Ok categories ∧
    portfolio_balance data portfolio positions = Ok rows ∧
    Forall2
      (λ c row,
         row.(row_category) = c.(Category.name) ∧
         row.(row_ideal) = c.(Category.allocation_percentage) ∧
         row.(row_holdings) = Ticker.name <$> c.(Category.tickers) ∧
         row.(row_needed) = row.(row_ideal) - row.(row_actual))
      categories rows.
Proof.
  destruct data as [[m cbn] tbn]. intros Hload Hequity.
  pose proof (parsed_categories_of _ _ _ _ _ Hload) as Hcats.
  exists (dict_values cbn).
  edestruct (mapM_result_Forall2
               (balance_of_category (m, cbn, tbn) portfolio positions))
    as (rows & Hrows & HR); [|exists rows; split_and!; [done| |exact HR]].
  - intros c ([k c'] & -> & Hkc)%list_elem_of_fmap. simpl.
    destruct (parsed_allocation_total _ _ _ _ _ _ Hload Hkc) as [Hts [a Ha]].
    unfold balance_of_category. rewrite Hts, bind_Ok, Ha, bind_Ok.
    unfold truediv. rewrite decide_False by done.
    eexists. split; [reflexivity|]. done.
  - unfold portfolio_balance. by rewrite Hcats, bind_Ok.
Qed.

(** With a non-zero equity the table of a parsed configuration is
    computed. *)
Lemma portfolio_balance_total reader data :
  _load_info_from_csv float_of_str reader = Ok data →
  portfolio.(equity) ≠ 0 →
  ∃ rows, portfolio_balance data portfolio positions = Ok rows.
Proof.
  destruct data as [[m cbn] tbn]. intros Hload Hequity.
  unfold portfolio_balance.
  rewrite (parsed_categories_of _ _ _ _ _ Hload), bind_Ok.
  edestruct (mapM_result_Forall2
               (balance_of_category (m, cbn, tbn) portfolio positions)
               (λ _ _, True))
    as (rows & Hrows & _); [|by exists rows].
  intros c ([k c'] & -> & Hkc)%list_elem_of_fmap. simpl.
  destruct (parsed_allocation_total _ _ _ _ _ _ Hload Hkc) as [Hts [a Ha]].
  unfold balance_of_category. rewrite Hts, bind_Ok, Ha, bind_Ok.
  unfold truediv. rewrite decide_False by done. by eexists.
Qed.

(** X17. No summary is built from a snapshot whose equity reads as zero:
    [_update_portfolio_dictionary] raises. So the summary that [main] passes
    on has a non-zero equity, and on a parsed configuration the balance
    table is computed from it without error: the division by the equity
    never raises. *)
Theorem portfolio_balance_of_built_summary :
  (∀ raw,
     float_of_str raw.(raw_equity) = Some 0 →
     ∃ e, _update_portfolio_dictionary float_of_str raw = Raise e ∧
          (e = ValueError ∨ e = ZeroDivisionError)) ∧
  (∀ raw reader data,
     _update_portfolio_dictionary float_of_str raw = Ok portfolio →
     _load_info_from_csv float_of_str reader = Ok data →
     float_of_str raw.(raw_equity) = Some portfolio.(equity) ∧
     portfolio.(equity) ≠ 0 ∧
     ∃ rows, portfolio_balance data portfolio positions = Ok rows).
Proof.
  split.
  - intros raw He. unfold _update_portfolio_dictionary, py_float.
    rewrite He. simpl.
    destruct (float_of_str (raw_adjusted_equity_previous_close raw)) as [pc|];
      [simpl|by eauto].
    destruct (float_of_str (raw_market_value raw)) as [v|]; [simpl|by eauto].
    unfold truediv. destruct (decide (pc = 0)); simpl; [by eauto|].
    destruct (decide (0 = 0)); [by eauto|done].
  - intros raw reader data Hbuilt Hload.
    assert (float_of_str raw.(raw_equity) = Some portfolio.(equity) ∧
            portfolio.(equity) ≠ 0) as [Hread Hequity].
    { revert Hbuilt. unfold _update_portfolio_dictionary, py_float.
      destruct (float_of_str (raw_equity raw)) as [e|]; [simpl|done].
      destruct (float_of_str (raw_adjusted_equity_previous_close raw))
        as [pc|]; [simpl|done].
      destruct (float_of_str (raw_market_value raw)) as [v|]; [simpl|done].
      unfold truediv. destruct (decide (pc = 0)); simpl; [done|].
      destruct (decide (e = 0)); simpl; [done|]. by intros [= <-]. }
    split_and!; [done|done|].
    by apply (portfolio_balance_total reader).
Qed.

End BalanceTable.

(** ** Sign of the allocations *)

Lemma Qc_nonneg_plus (x y : Qc) : 0 ≤ x → 0 ≤ y → 0 ≤ x + y.
Proof.
  intros Hx Hy. replace 0 with (0 + 0) by ring. by apply Qcplus_le_compat.
Qed.

Lemma Qc_nonneg_mult (x y : Qc) : 0 ≤ x → 0 ≤ y → 0 ≤ x * y.
Proof.
  intros Hx Hy. replace 0 with (0 * y) by ring.
  by apply Qcmult_le_compat_r.
Qed.

Lemma Qc_nonneg_div (x y : Qc) : 0 ≤ x → 0 ≤ y → y ≠ 0 → 0 ≤ x / y.
Proof.
  intros Hx Hy Hne. apply (Qcmult_lt_0_le_reg_r _ _ y).
  - apply Qcle_lt_or_eq in Hy as [?|?]; [done|congruence].
  - replace (0 * y) with 0 by ring.
    replace (x / y * y) with x by (by field). done.
Qed.

Lemma float_of_len_nonneg n : 0 ≤ float_of_len n.
Proof.
  unfold float_of_len, float_of_int, Qcle. simpl.
  rewrite (Qred_correct (inject_Z (Z.of_nat n))).
  unfold Qle. simpl. lia.
Qed.

Lemma hundred_nonneg : 0 ≤ hundred.
Proof. unfold Qcle, Qle. by vm_compute. Qed.

Section Sign.
Variable data : csv_info.
Variable portfolio : portfolio_dict.
Variable positions : pydict position.
Hypothesis positions_nonneg : Forall (λ kv, 0 ≤ kv.2.(total_value)) positions.

Lemma allocation_step_nonneg acc t a :
  0 ≤ acc →
  allocation_step data portfolio positions acc t = Ok a → 0 ≤ a.
Proof.
  intros Hacc. unfold allocation_step. case_decide.
  - simpl. case_decide; intros [= <-]; [done|by apply Qcnot_lt_le].
  - destruct (dict_get positions (Ticker.name t)) as [p|] eqn:Hp.
    + unfold truediv. case_decide as Hlen; [done|]. simpl. intros [= <-].
      apply Qc_nonneg_plus; [done|].
      apply Qc_nonneg_div; [|apply float_of_len_nonneg|done].
      apply dict_get_Some_elem in Hp.
      rewrite Forall_forall in positions_nonneg.
      apply (positions_nonneg _ Hp).
    + by intros [= <-].
Qed.

Lemma allocation_loop_nonneg acc stocks a :
  0 ≤ acc →
  allocation_loop data portfolio positions acc stocks = Ok a → 0 ≤ a.
Proof.
  revert acc. induction stocks as [|t stocks IH]; intros acc Hacc; simpl.
  - by intros [= <-].
  - destruct (allocation_step data portfolio positions acc t) as [acc'|]
      eqn:Hstep; [|done].
    apply IH. by apply allocation_step_nonneg in Hstep.
Qed.

(** X18. When no held position has a negative value and the equity is
    positive, no line of the balance table has a negative actual
    percentage, so the needed percentage never exceeds the ideal one: a
    cash amount below the reserve counts as zero, not as a negative
    allocation. *)
Theorem actual_percentage_is_not_negative rows :
  0 < portfolio.(equity) →
  portfolio_balance data portfolio positions = Ok rows →
  Forall (λ row, 0 ≤ row.(row_actual) ∧ row.(row_needed) ≤ row.(row_ideal))
    rows.
Proof.
  intros Hequity. unfold portfolio_balance.
  destruct (categories_of data) as [categories|]; [|done].
  rewrite bind_Ok. intros Hrows%mapM_result_inv.
  induction Hrows as [|c row categories rows Hrow _ IH]; constructor; [|done].
  unfold balance_of_category in Hrow.
  destruct (tickers_in_category data (Category.name c)) as [stocks|]; [|done].
  rewrite bind_Ok in Hrow.
  destruct (allocation_loop data portfolio positions 0 stocks) as [a|] eqn:Ha;
    [|done].
  rewrite bind_Ok in Hrow. unfold truediv in Hrow.
  case_decide as Hne; [done|]. simpl in Hrow. injection Hrow as <-. simpl.
  assert (0 ≤ hundred * a / equity portfolio) as Hactual.
  { apply Qc_nonneg_div; [|by apply Qclt_le_weak|done].
    apply Qc_nonneg_mult; [apply hundred_nonneg|].
    by apply (allocation_loop_nonneg 0 stocks). }
  split; [done|].
  apply Qcle_minus_iff.
  replace (Category.allocation_percentage c +
           - (Category.allocation_percentage c - hundred * a / equity portfolio))
    with (hundred * a / equity portfolio) by ring.
  done.
Qed.

End Sign.

(** ** The percent sign of an allocation *)

Lemma str_remove_app c (a b : string) :
  str_remove c (a +:+ b) = str_remove c a +:+ str_remove c b.
Proof.
  induction a as [|x a IH]; simpl; [done|].
  case_decide; [done|]. simpl. by rewrite IH.
Qed.

(** X20. Every percent sign of an allocation cell is dropped before the
    number is read, wherever it stands: "50%", "50" and "5%0" give the same
    category. *)
Theorem percent_signs_are_dropped float_of_str name (a b : string) :
  Category_init float_of_str name (a +:+ "%" +:+ b)
    = Category_init float_of_str name (a +:+ b).
Proof.
  rewrite !Category_init_eq, !str_remove_app.
  by replace (str_remove "%" "%") with EmptyString by reflexivity.
Qed.

(** ** Instances of the further properties *)

Lemma blank_row_witness :
  _load_info_from_csv decimal_of_str
    ([ ["Reserved cash amount"; "1000"]; ["Category"] ]
       ++ [""; ""] :: [ ["Tech"; "50%"] ])
  = _load_info_from_csv decimal_of_str
      ([ ["Reserved cash amount"; "1000"]; ["Category"] ]
         ++ [ ["Tech"; "50%"] ]).
Proof. apply (blank_row_is_skipped decimal_of_str). reflexivity. Defined.

Lemma unrecognised_setting_witness :
  _load_info_from_csv decimal_of_str
    ([ ["Reserved cash amount"; "1000"] ]
       ++ ["Broker"; "Robinhood"] :: [ ["Category"]; ["Tech"; "50%"] ])
  = _load_info_from_csv decimal_of_str
      ([ ["Reserved cash amount"; "1000"] ]
         ++ [ ["Category"]; ["Tech"; "50%"] ]).
Proof.
  apply (unrecognised_setting_is_ignored decimal_of_str _ _ _ "Broker");
    [rows_ok|reflexivity|done|done|done].
Defined.

Lemma repeated_header_witness :
  _load_info_from_csv decimal_of_str
    ([ ["Reserved cash amount"; "1000"] ] ++ ["Category"; "Allocation"]
       :: [ ["Tech"; "50%"] ] ++ ["Category"; "Allocation"]
       :: [ ["Cash"; "10%"] ])
  = _load_info_from_csv decimal_of_str
      ([ ["Reserved cash amount"; "1000"] ] ++ ["Category"; "Allocation"]
         :: [ ["Tech"; "50%"] ] ++ [ ["Cash"; "10%"] ]) ∧
  _load_info_from_csv decimal_of_str
    ([ ["Reserved cash amount"; "1000"] ] ++ ["Category"]
       :: [ ["Tech"; "50%"] ] ++ ["Stock ticker"]
       :: [ ["AAPL"; "Tech"] ] ++ ["Stock ticker"; "Categories"]
       :: [ ["MSFT"; "Tech"] ])
  = _load_info_from_csv decimal_of_str
      ([ ["Reserved cash amount"; "1000"] ] ++ ["Category"]
         :: [ ["Tech"; "50%"] ] ++ ["Stock ticker"]
         :: [ ["AAPL"; "Tech"] ] ++ [ ["MSFT"; "Tech"] ]).
Proof.
  destruct (repeated_header_is_skipped decimal_of_str) as [Hcat Htick].
  split.
  - apply Hcat; [rows_ok|by left|rows_ok|reflexivity].
  - apply Htick; [rows_ok|by left|rows_ok|reflexivity|reflexivity].
Defined.

Lemma last_reserved_cash_amount_witness :
  minimum_cash_amount_of
    (float_of_int 1000,
     [("Tech", {| Category.name := "Tech"; Category.tickers := [];
                  Category.allocation_percentage := float_of_int 50 |})],
     []) = float_of_int 1000.
Proof.
  apply (last_reserved_cash_amount_wins decimal_of_str
           [ ["Reserved cash amount"; "500"] ]
           ["Reserved cash amount"; "1000"; ""]
           [ ["Broker"; "Robinhood"]; [] ]
           [ ["Category"]; ["Tech"; "50%"] ] "1000" []);
    [rows_ok|reflexivity|reflexivity| | |reflexivity].
  - repeat constructor; by vm_compute.
  - right. eexists _, _. split; [reflexivity|by left].
Defined.

Lemma malformed_reserved_cash_witness :
  _load_info_from_csv decimal_of_str
    ([ ["Broker"; "Robinhood"] ]
       ++ ["Reserved cash amount"; "a lot"] :: [ ["Category"] ])
  = Raise ValueError.
Proof.
  apply (malformed_reserved_cash_raises_ValueError decimal_of_str _ _ _ None
           "a lot" []); [rows_ok|reflexivity|reflexivity|reflexivity].
Defined.

Lemma reserved_cash_line_witness :
  reserved_cash_line (0, [], []) example_portfolio = Raise ZeroDivisionError.
Proof.
  refine (eq_trans
            (reserved_cash_line_of_parse decimal_of_str []
               ["Reserved cash amount"; "0"] [] [] "0" [] 0 (0, [], [])
               example_portfolio _ _ _ _ _ _) _);
    [rows_ok|reflexivity|reflexivity|constructor|by left|reflexivity
    |reflexivity].
Defined.

Lemma get_categories_of_stock_ticker_witness :
  get_categories_of_stock_ticker decimal_of_str
    (StockCategories_init example_rows) "AAPL"
  = Ok (["Tech"],
        {| _categories_csv_file := example_rows;
           csv_data := Some example_data |}) ∧
  get_categories_of_stock_ticker decimal_of_str
    (StockCategories_init example_rows) "MSFT"
  = Raise TickerNotFoundError.
Proof.
  split.
  - exact (get_categories_of_stock_ticker_of_parse decimal_of_str example_rows
             example_data "AAPL" eq_refl).
  - exact (get_categories_of_stock_ticker_of_parse decimal_of_str example_rows
             example_data "MSFT" eq_refl).
Defined.

Lemma get_tickers_in_category_of_parse_witness :
  [Ticker_init "AAPL" ["Tech"; "Growth"]; Ticker_init "MSFT" ["Tech"]]
  = declared_tickers (ticker_rows decimal_of_str split_rows)
      ≫= memberships "Tech".
Proof.
  apply (get_tickers_in_category_of_parse decimal_of_str split_rows split_data
           "Tech"); reflexivity.
Defined.

Lemma get_categories_witness :
  ∃ categories,
    categories_of split_data = Ok categories ∧
    Category.name <$> categories = ["Tech"; "Growth"] ∧
    NoDup (Category.name <$> categories).
Proof.
  destruct (get_categories_of_parse decimal_of_str split_rows split_data
              eq_refl) as (categories & Hcats & Hnames & Hnd).
  exists categories. split_and!; [exact Hcats|exact Hnames|exact Hnd].
Defined.

Lemma uncategorized_tickers_witness :
  uncategorized_tickers example_data
    [("AAPL", example_aapl); ("MSFT", example_aapl)] = Ok ["MSFT"].
Proof.
  exact (uncategorized_tickers_of_parse decimal_of_str example_rows
           example_data [("AAPL", example_aapl); ("MSFT", example_aapl)]
           eq_refl).
Defined.

Lemma positions_dictionary_witness :
  ∃ results e,
    _update_positions_dictionary decimal_of_str example_session_get
      example_quote_data example_raw_positions = Ok results ∧
    dict_get results "AAPL" = Some e ∧ e.(symbol) = "AAPL" ∧
    dict_get results "TSLA" = None.
Proof.
  assert (∃ results,
    _update_positions_dictionary decimal_of_str example_session_get
      example_quote_data example_raw_positions = Ok results)
    as [results Hres] by (eexists; vm_compute; reflexivity).
  destruct (positions_dictionary_last_write_wins decimal_of_str
              example_session_get example_quote_data example_raw_positions
              results "AAPL" Hres) as (e & _ & Hget & Hsym).
  exists results, e. split_and!; [exact Hres|exact Hget|exact Hsym|].
  exact (positions_dictionary_last_write_wins decimal_of_str
           example_session_get example_quote_data example_raw_positions
           results "TSLA" Hres).
Defined.

Lemma positions_dictionary_all_or_nothing_witness :
  _update_positions_dictionary decimal_of_str example_session_get
    halted_quote_data example_raw_positions = Raise ZeroDivisionError.
Proof.
  apply (positions_dictionary_all_or_nothing decimal_of_str example_session_get
           halted_quote_data
           [ {| raw_quantity := "10"; raw_average_buy_price := "100";
                raw_instrument := "instruments/aapl" |} ]
           {| raw_quantity := "1"; raw_average_buy_price := "0.0000";
              raw_instrument := "instruments/free" |} []).
  - apply Forall_cons_2; [|apply Forall_nil_2].
    unfold enrichable; cbv zeta.
    split_and!; [by eexists|by eexists|by eexists|].
    eexists. split; [reflexivity|].
    intros Heq. apply (f_equal this) in Heq. by vm_compute in Heq.
  - by eexists.
  - by eexists.
  - by eexists.
  - reflexivity.
Defined.

Lemma portfolio_balance_witness :
  ∃ categories rows,
    categories_of split_data = Ok categories ∧
    portfolio_balance split_data example_portfolio example_positions
      = Ok rows ∧
    Forall2
      (λ c row,
         row.(row_category) = c.(Category.name) ∧
         row.(row_ideal) = c.(Category.allocation_percentage) ∧
         row.(row_holdings) = Ticker.name <$> c.(Category.tickers) ∧
         row.(row_needed) = row.(row_ideal) - row.(row_actual))
      categories rows.
Proof.
  apply (portfolio_balance_of_parse decimal_of_str example_portfolio
           example_positions split_rows split_data eq_refl).
  intros Heq. apply (f_equal this) in Heq. by vm_compute in Heq.
Defined.

Lemma portfolio_balance_of_built_summary_witness :
  (∃ e, _update_portfolio_dictionary decimal_of_str new_raw_portfolio = Raise e ∧
        (e = ValueError ∨ e = ZeroDivisionError)) ∧
  ∃ portfolio rows,
    _update_portfolio_dictionary decimal_of_str example_raw_portfolio
      = Ok portfolio ∧
    portfolio.(equity) ≠ 0 ∧
    portfolio_balance example_data portfolio example_positions = Ok rows.
Proof.
  split.
  - by apply (portfolio_balance_of_built_summary decimal_of_str example_portfolio
                example_positions).
  - assert (∃ portfolio,
      _update_portfolio_dictionary decimal_of_str example_raw_portfolio
        = Ok portfolio) as [portfolio Hbuilt] by (by eexists).
    destruct (portfolio_balance_of_built_summary decimal_of_str portfolio
                example_positions) as [_ Hrows].
    destruct (Hrows example_raw_portfolio example_rows example_data Hbuilt
                eq_refl) as (_ & Hequity & rows & Hbalance).
    by exists portfolio, rows.
Defined.

Lemma actual_percentage_witness :
  ∃ rows,
    portfolio_balance example_data example_portfolio example_positions
      = Ok rows ∧
    Forall (λ row, 0 ≤ row.(row_actual) ∧ row.(row_needed) ≤ row.(row_ideal))
      rows.
Proof.
  eexists. split; [reflexivity|].
  apply (actual_percentage_is_not_negative example_data example_portfolio
           example_positions).
  - apply Forall_cons_2; [|apply Forall_nil_2]. unfold Qcle, Qle. by vm_compute.
  - unfold Qclt, Qlt. by vm_compute.
  - reflexivity.
Defined.

(** With AAPL split over two categories, its two halves, 7.5% each, add up
    to the 15% that its 1500 are of the equity. *)
Example split_balance :
  ∃ tech growth,
    portfolio_balance split_data example_portfolio example_positions
      = Ok [tech; growth] ∧
    tech.(row_actual) = float_of_int 15 / float_of_int 2 ∧
    growth.(row_actual) = float_of_int 15 / float_of_int 2 ∧
    Qc_sum (row_actual <$> [tech; growth]) = float_of_int 15.
Proof.
  do 2 eexists. split; [reflexivity|].
  split_and!; Qc_values.
Qed.
